(** * Planning and decision support: TOPSIS ranking and split-budget scheduling

    A shallow embedding of the two computational functions of the repository,

    - [topsis_rank_states]   (src/topsis/simple-example.py), and
    - [schedule_allow_split] (src/schedule/example.py),

    together with the properties their specification states about them.

    Numbers.  Python computes on binary64 floats.  The properties below are
    the exact-arithmetic ones: the scheduler only adds, subtracts, multiplies,
    divides and compares, so it is embedded over the rationals [Q] and stays
    executable; the ranking engine takes square roots, so it is embedded over
    the reals [R].  [float(x)] is the identity on a number in both.

    Exceptions.  Every operation of the source that can raise (a missing
    dictionary key, an index out of range, a division by zero, [max] of an
    empty sequence, an explicit [raise]) is embedded as a computation in the
    error monad [result], so that "no error occurs" is a statement about the
    embedded code and not an artefact of total operators. *)

From Stdlib Require Import Reals QArith Qminmax Psatz String List Permutation Sorted.
From stdpp Require Import gmap strings list fin_maps.

Set Default Proof Using "Type".

(* ===================================================================== *)
(** * Values, exceptions and the error monad                             *)
(* ===================================================================== *)

(** A value stored in an entity dictionary: text (the name) or a number. *)
Inductive value (num : Type) : Type :=
| VStr (s : string)
| VNum (x : num).
Arguments VStr {num} s.
Arguments VNum {num} x.

(** The reason carried by a [ValueError].  The first four are the messages of
    the explicit [raise] statements of [topsis_rank_states]; the last two are
    raised by the builtins [max]/[min] (empty argument) and [float] (text). *)
Inductive value_error : Type :=
| MissingWeight (c : string)      (* "Missing weight for criterion 'c'." *)
| MissingFlag (c : string)        (* "Missing benefit/cost flag for criterion 'c'." *)
| MissingCriterion (c : string)   (* "State '...' missing criterion 'c'." *)
| WeightSum                       (* "Sum of weights must be > 0." *)
| EmptySequence                   (* "max() arg is an empty sequence" *)
| NotNumeric.                     (* "could not convert string to float" *)

Inductive exn : Type :=
| ValueError (why : value_error)
| KeyError (key : string)
| IndexError
| ZeroDivisionError.

Inductive result (A : Type) : Type :=
| Ok (a : A)
| Raise (e : exn).
Arguments Ok {A} a.
Arguments Raise {A} e.

Definition bind {A B : Type} (m : result A) (k : A -> result B) : result B :=
  match m with
  | Ok a => k a
  | Raise e => Raise e
  end.

Notation "'let*' x ':=' m 'in' k" := (bind m (fun x => k))
  (at level 10, x name, m at level 100, k at level 200,
   format "'[v' 'let*'  x  ':='  m  'in' '/' k ']'").

(** [[f(x) for x in l]] where [f] may raise: left to right, first error wins. *)
Fixpoint mapM {A B : Type} (f : A -> result B) (l : list A) : result (list B) :=
  match l with
  | [] => Ok []
  | x :: l' => let* y := f x in let* ys := mapM f l' in Ok (y :: ys)
  end.

(** [d[k]] on an entity dictionary. *)
Definition getitem {V : Type} (d : gmap string V) (k : string) : result V :=
  match d !! k with
  | Some v => Ok v
  | None => Raise (KeyError k)
  end.

(** [l[i]] on a list. *)
Definition index {A : Type} (l : list A) (i : nat) : result A :=
  match l !! i with
  | Some x => Ok x
  | None => Raise IndexError
  end.

(** [float(v)]: the identity on numbers; text is taken to be non-numeric. *)
Definition float {num : Type} (v : value num) : result num :=
  match v with
  | VNum x => Ok x
  | VStr _ => Raise (ValueError NotNumeric)
  end.

(* ===================================================================== *)
(** * Insertion-ordered dictionaries                                     *)
(* ===================================================================== *)

(** A Python [dict] whose iteration order matters (the period budgets, the
    remaining budgets, the returned schedule) is an association list in
    insertion order; a well-formed one has no duplicate key. *)
Section Dict.
Context {V : Type}.

Definition dict : Type := list (string * V).

Definition dict_keys (d : dict) : list string := map fst d.

Fixpoint dict_get (d : dict) (k : string) : option V :=
  match d with
  | [] => None
  | (k', v) :: d' => if String.eqb k' k then Some v else dict_get d' k
  end.

(** [d[k] = v]: replaces the value in place, or appends a new key. *)
Fixpoint dict_set (d : dict) (k : string) (v : V) : dict :=
  match d with
  | [] => [(k, v)]
  | (k', v') :: d' =>
      if String.eqb k' k then (k', v) :: d' else (k', v') :: dict_set d' k v
  end.

(** [d[k]], raising [KeyError] on a missing key. *)
Definition dict_getitem (d : dict) (k : string) : result V :=
  match dict_get d k with
  | Some v => Ok v
  | None => Raise (KeyError k)
  end.
End Dict.
Arguments dict V : clear implicits.

(* ===================================================================== *)
(** * The allocation scheduler (src/schedule/example.py)                 *)
(* ===================================================================== *)

Module Schedule.
Local Open Scope Q_scope.

(** [State = Dict[str, float]] (with the text entry ["name"]) and
    [Budgets = Dict[str, float]], the latter in insertion order. *)
Abbreviation State := (gmap string (value Q)).
Abbreviation Budgets := (dict Q).

(** [x > 0] and [x <= 0] on numbers. *)
Definition Qpositive (x : Q) : bool := negb (Qle_bool x 0).

(** [x / y], raising on a zero divisor. *)
Definition fdiv (x y : Q) : result Q :=
  if Qeq_bool y 0 then Raise ZeroDivisionError else Ok (x / y).

(** [compute_state_cost]: cost per habitant times population. *)
Definition compute_state_cost (state : State) : result Q :=
  let* c := getitem state "cost_per_habitant" in
  let* c := float c in
  let* p := getitem state "population" in
  let* p := float p in
  Ok (c * p).

(** [{"name": name, "allocated": allot}] *)
Record allocation : Type := Allocation {
  alloc_name : value Q;
  alloc_allocated : Q
}.

(** One element of the ['coverage'] list. *)
Record coverage_record : Type := CoverageRecord {
  cov_name : value Q;
  cov_total_cost : Q;
  cov_allocated : Q;
  cov_coverage_pct : Q;
  cov_fully_funded : bool
}.

(** A value of the returned flat dictionary. *)
Inductive entry : Type :=
| Allocations (l : list allocation)
| RemainingBudgets (r : dict Q)
| Coverage (c : list coverage_record).

(** The mutable locals of the inner loop. *)
Record funding : Type := Funding {
  remaining : dict Q;
  schedule : dict (list allocation);
  need : Q;
  allocated_total : Q
}.

(** The loop [for q in remaining.keys(): ...] for one state (lines 40-51).
    [qs] is what is left of the key sequence. *)
Fixpoint fund (name : value Q) (qs : list string) (f : funding) : result funding :=
  match qs with
  | [] => Ok f
  | q :: qs' =>
      if Qle_bool (need f) 0 then Ok f                       (* break *)
      else
        let* r := dict_getitem (remaining f) q in
        if Qle_bool r 0 then fund name qs' f                 (* continue *)
        else
          let* r := dict_getitem (remaining f) q in
          let allot := Qmin (need f) r in
          if Qpositive allot then
            let* r := dict_getitem (remaining f) q in
            let remaining' := dict_set (remaining f) q (r - allot) in
            let* l := dict_getitem (schedule f) q in
            let schedule' :=
              dict_set (schedule f) q (l ++ [Allocation name allot]) in
            fund name qs'
              (Funding remaining' schedule' (need f - allot)
                 (allocated_total f + allot))
          else fund name qs' f
  end.

(** The state carried from one entity to the next. *)
Record pass : Type := Pass {
  pass_remaining : dict Q;
  pass_schedule : dict (list allocation);
  pass_coverage : list coverage_record
}.

(** The body of [for s in states: ...] (lines 35-59). *)
Definition fund_state (s : State) (p : pass) : result pass :=
  let* name := getitem s "name" in
  let* total_cost := compute_state_cost s in
  let* f := fund name (dict_keys (pass_remaining p))
              (Funding (pass_remaining p) (pass_schedule p) total_cost 0) in
  let* pct := (if Qpositive total_cost then fdiv (allocated_total f) total_cost
               else Ok 0) in
  Ok (Pass (remaining f) (schedule f)
        (pass_coverage p ++
           [CoverageRecord name total_cost (allocated_total f) pct
              (Qle_bool total_cost (allocated_total f))])).

(** The loop [for s in states] (line 34). *)
Fixpoint fund_states (states : list State) (p : pass) : result pass :=
  match states with
  | [] => Ok p
  | s :: states' => let* p' := fund_state s p in fund_states states' p'
  end.

(** Lines 30-32: the two dictionary comprehensions and the empty list. *)
Definition initial_pass (budgets : Budgets) : pass :=
  Pass (fold_left (fun d qb => dict_set d (fst qb) (snd qb)) budgets [])
       (fold_left (fun d q => dict_set d q []) (dict_keys budgets) [])
       [].

(** The state of the pass after the entities [states] have been processed. *)
Definition allocation_pass (states : list State) (budgets : Budgets) : result pass :=
  fund_states states (initial_pass budgets).

(** Lines 61-63: the flat dictionary that is returned. *)
Definition finish (p : pass) : dict entry :=
  let schedule := map (fun ql => (fst ql, Allocations (snd ql))) (pass_schedule p) in
  let schedule := dict_set schedule "remaining_budgets" (RemainingBudgets (pass_remaining p)) in
  let schedule := dict_set schedule "coverage" (Coverage (pass_coverage p)) in
  schedule.

Definition schedule_allow_split (states : list State) (budgets : Budgets)
  : result (dict entry) :=
  let* p := allocation_pass states budgets in
  Ok (finish p).

(** ** Reading the returned structure *)

(** The sum of the amounts of a list of allocation records. *)
Definition allocated_sum (l : list allocation) : Q :=
  fold_right (fun a acc => alloc_allocated a + acc) 0 l.

(** [out[q]], when it is a list of allocation records. *)
Definition allocations_of (out : dict entry) (q : string) : option (list allocation) :=
  match dict_get out q with
  | Some (Allocations l) => Some l
  | _ => None
  end.

(** [out["remaining_budgets"][q]] *)
Definition remaining_of (out : dict entry) (q : string) : option Q :=
  match dict_get out "remaining_budgets" with
  | Some (RemainingBudgets r) => dict_get r q
  | _ => None
  end.

(** [out["coverage"]] *)
Definition coverage_of (out : dict entry) : option (list coverage_record) :=
  match dict_get out "coverage" with
  | Some (Coverage c) => Some c
  | _ => None
  end.

(** ** Predicates used to state the properties *)

(** Every recorded amount is positive. *)
Definition positive_amounts (l : list allocation) : Prop :=
  Forall (fun a => 0 < alloc_allocated a) l.

(** The budgets [r'] and allocation lists [s'] are reached from [r] and [s]
    by funding: the keys are those of [r] and [s], and every period's list
    has grown by records [new] of positive amounts whose sum is what the
    period's budget has lost; a period without budget is left as it is. *)
Record extends (r : dict Q) (s : dict (list allocation))
               (r' : dict Q) (s' : dict (list allocation)) : Prop := {
  ext_keys_remaining : dict_keys r' = dict_keys r;
  ext_keys_schedule : dict_keys s' = dict_keys s;
  ext_period : forall q b l,
    dict_get r q = Some b -> dict_get s q = Some l ->
    exists b' new,
      dict_get r' q = Some b' /\ dict_get s' q = Some (l ++ new) /\
      allocated_sum new + b' == b /\ positive_amounts new /\
      (b <= 0 -> new = [] /\ b' = b) /\ (0 <= b -> 0 <= b')
}.

(** An entity the scheduler can read: a name, and a numeric cost per
    habitant and population. *)
Definition well_formed (s : State) : Prop :=
  is_Some (s !! "name") /\
  exists c p, s !! "cost_per_habitant" = Some (VNum c) /\
              s !! "population" = Some (VNum p).


(** What the coverage record [c] of the entity [s] must be. *)
Definition covers (s : State) (c : coverage_record) : Prop :=
  getitem s "name" = Ok (cov_name c) /\
  compute_state_cost s = Ok (cov_total_cost c) /\
  0 <= cov_allocated c /\
  (0 <= cov_total_cost c -> cov_allocated c <= cov_total_cost c) /\
  (cov_fully_funded c = true <-> cov_total_cost c <= cov_allocated c) /\
  (0 < cov_total_cost c ->
     cov_coverage_pct c = cov_allocated c / cov_total_cost c) /\
  (cov_total_cost c <= 0 -> cov_coverage_pct c = 0).

(** Both dictionaries of the pass have the same key sequence. *)
Definition aligned (p : pass) : Prop :=
  dict_keys (pass_schedule p) = dict_keys (pass_remaining p).

(** ** Further readings of the pass and of the returned structure *)

(** One execution of lines 46-51 for the period [q]: the entity [name] still
    needs money, the period still has some, and [allot] is moved. *)
Inductive fund_step (name : value Q) : funding -> funding -> Prop :=
| FundStep (f : funding) (q : string) (r : Q) (l : list allocation) :
    dict_get (remaining f) q = Some r ->
    dict_get (schedule f) q = Some l ->
    0 < need f -> 0 < r ->
    fund_step name f
      (Funding (dict_set (remaining f) q (r - Qmin (need f) r))
               (dict_set (schedule f) q (l ++ [Allocation name (Qmin (need f) r)]))
               (need f - Qmin (need f) r)
               (allocated_total f + Qmin (need f) r)).











(** The period [q1] stands before the period [q2] in the budget mapping. *)
Definition before (budgets : Budgets) (q1 q2 : string) : Prop :=
  exists i j, (i < j)%nat /\
    dict_keys budgets !! i = Some q1 /\ dict_keys budgets !! j = Some q2.

(** The lists of [s'] and of [t'] have grown from those of [s] and of [t] by
    the same records. *)
Definition same_growth (s s' t t' : dict (list allocation)) : Prop :=
  dict_keys s' = dict_keys s /\ dict_keys t' = dict_keys t /\
  forall q l k, dict_get s q = Some l -> dict_get t q = Some k ->
    exists new, dict_get s' q = Some (l ++ new) /\ dict_get t' q = Some (k ++ new).

(** No list of records is begun under a period while an earlier period has
    budget left. *)
Definition in_order (r : dict Q) (s : dict (list allocation)) : Prop :=
  forall q1 q2 l,
    before r q1 q2 -> dict_get s q2 = Some l -> l <> [] ->
    exists b, dict_get r q1 = Some b /\ b <= 0.

(** ** The example of the source's [__main__] *)

Definition mk_state (name : string) (score cost_per_habitant population : Q) : State :=
  {[ "name" := VStr name; "score" := VNum score;
     "cost_per_habitant" := VNum cost_per_habitant;
     "population" := VNum population ]}.

Definition example_states : list State :=
  [ mk_state "State A" 78 1100 2500000;
    mk_state "State B" 85 1500 4000000;
    mk_state "State C" 72 900 1200000;
    mk_state "State D" 90 1700 3300000;
    mk_state "State E" 80 1000 2000000 ].

Definition budgets_small : Budgets :=
  [("q1", 100000); ("q2", 500000); ("q3", 890000); ("q4", 100000)].

(** One entity of total cost 4. *)
Definition state_A : State := mk_state "A" 1 2 2.

End Schedule.

(* ===================================================================== *)
(** * The ranking engine (src/topsis/simple-example.py)                  *)
(* ===================================================================== *)

Module Topsis.
Local Open Scope R_scope.

Abbreviation State := (gmap string (value R)).
Abbreviation Weights := (gmap string R).
Abbreviation Flags := (gmap string bool).

(** The defaults of lines 44 and 46, and of the signature. *)
Definition default_weights : Weights :=
  {[ "score" := 0.6; "cost_per_habitant" := 0.3; "population" := 0.1 ]}.

Definition default_benefit_flags : Flags :=
  {[ "score" := true; "cost_per_habitant" := false; "population" := true ]}.

Definition default_criteria_order : list string :=
  ["score"; "cost_per_habitant"; "population"].

(** ** Builtins *)

(** [sum(l)] *)
Definition sum (l : list R) : R := fold_left Rplus l 0.

(** [x / y], raising on a zero divisor. *)
Definition truediv (x y : R) : result R :=
  if Req_dec_T y 0 then Raise ZeroDivisionError else Ok (x / y).

(** [max(l)] and [min(l)], raising on an empty list. *)
Definition py_max (l : list R) : result R :=
  match l with
  | [] => Raise (ValueError EmptySequence)
  | x :: l' => Ok (fold_left Rmax l' x)
  end.

Definition py_min (l : list R) : result R :=
  match l with
  | [] => Raise (ValueError EmptySequence)
  | x :: l' => Ok (fold_left Rmin l' x)
  end.

(** A [for] loop whose body only checks. *)
Fixpoint for_each {A : Type} (f : A -> result unit) (l : list A) : result unit :=
  match l with
  | [] => Ok tt
  | x :: l' => let* _ := f x in for_each f l'
  end.

(** ** Validation (lines 48-57) *)

Definition check_criterion (weights : Weights) (benefit_flags : Flags)
    (c : string) : result unit :=
  match weights !! c with
  | None => Raise (ValueError (MissingWeight c))
  | Some _ =>
      match benefit_flags !! c with
      | None => Raise (ValueError (MissingFlag c))
      | Some _ => Ok tt
      end
  end.

Definition check_state (criteria_order : list string) (s : State) : result unit :=
  for_each (fun c => match s !! c with
                     | None => Raise (ValueError (MissingCriterion c))
                     | Some _ => Ok tt
                     end) criteria_order.

Definition validate (states : list State) (weights : Weights)
    (benefit_flags : Flags) (criteria_order : list string) : result unit :=
  let* _ := for_each (check_criterion weights benefit_flags) criteria_order in
  for_each (check_state criteria_order) states.

(** ** The stages of the computation *)

(** Line 61: [X = [[float(s[c]) for c in criteria_order] for s in states]] *)
Definition decision_matrix (states : list State) (criteria_order : list string)
  : result (list (list R)) :=
  mapM (fun s => mapM (fun c => let* v := getitem s c in float v) criteria_order)
       states.

(** Lines 66-69: the divisor of each column. *)
Definition column_norms (X : list (list R)) (n m : nat) : result (list R) :=
  mapM (fun j =>
          let* squares :=
            mapM (fun i => let* row := index X i in
                           let* x := index row j in
                           Ok (x ^ 2)) (seq 0 n) in
          let norm := sqrt (sum squares) in
          Ok (if Req_dec_T norm 0 then 1 else norm))
       (seq 0 m).

(** Line 71: [R = [[X[i][j] / col_norms[j] ...] ...]] *)
Definition normalize (X : list (list R)) (col_norms : list R) (n m : nat)
  : result (list (list R)) :=
  mapM (fun i =>
          mapM (fun j => let* row := index X i in
                         let* x := index row j in
                         let* d := index col_norms j in
                         truediv x d) (seq 0 m))
       (seq 0 n).

(** Lines 74-78: the weights in criterion order, normalized to sum to 1. *)
Definition weight_vector (weights : Weights) (criteria_order : list string)
  : result (list R) :=
  let* weight_vec := mapM (fun c => getitem weights c) criteria_order in
  let total_w := sum weight_vec in
  if Rle_dec total_w 0 then Raise (ValueError WeightSum)
  else mapM (fun w => truediv w total_w) weight_vec.

(** Line 80: [V = [[R[i][j] * weight_vec[j] ...] ...]] *)
Definition weighted (Rm : list (list R)) (weight_vec : list R) (n m : nat)
  : result (list (list R)) :=
  mapM (fun i =>
          mapM (fun j => let* row := index Rm i in
                         let* r := index row j in
                         let* w := index weight_vec j in
                         Ok (r * w)) (seq 0 m))
       (seq 0 n).

(** Lines 83-92: the ideal best and worst value of each column. *)
Definition ideal_points (V : list (list R)) (benefit_flags : Flags)
    (criteria_order : list string) (n m : nat) : result (list R * list R) :=
  let* pairs :=
    mapM (fun j =>
            let* col := mapM (fun i => let* row := index V i in index row j)
                          (seq 0 n) in
            let* c := index criteria_order j in
            let* benefit := getitem benefit_flags c in
            if benefit : bool then
              let* best := py_max col in
              let* worst := py_min col in
              Ok (best, worst)
            else
              let* best := py_min col in
              let* worst := py_max col in
              Ok (best, worst))
         (seq 0 m) in
  Ok (map fst pairs, map snd pairs).

(** Lines 95-96 *)
Definition euclidean_dist (m : nat) (vec ref : list R) : result R :=
  let* squares := mapM (fun j => let* a := index vec j in
                                 let* b := index ref j in
                                 Ok ((a - b) ^ 2)) (seq 0 m) in
  Ok (sqrt (sum squares)).

(** Lines 98-99: [[euclidean_dist(V[i], ref) for i in range(n)]] *)
Definition distances (V : list (list R)) (ref : list R) (n m : nat)
  : result (list R) :=
  mapM (fun i => let* row := index V i in euclidean_dist m row ref) (seq 0 n).

(** Lines 102-106 *)
Definition closeness_coefficients (S_plus S_minus : list R) (n : nat)
  : result (list R) :=
  mapM (fun i => let* sp := index S_plus i in
                 let* sm := index S_minus i in
                 let denom := sp + sm in
                 if Req_dec_T denom 0 then Ok 0
                 else let* sm := index S_minus i in truediv sm denom)
       (seq 0 n).

(** One dictionary of [result]. *)
Record entry : Type := Entry {
  entry_name : value R;
  entry_closeness : R;
  entry_score : value R;
  entry_cost_per_habitant : value R;
  entry_population : value R
}.

(** Lines 109-118 *)
Definition build_result (names : list (value R)) (closeness : list R)
    (states : list State) (n : nat) : result (list entry) :=
  mapM (fun i => let* name := index names i in
                 let* c := index closeness i in
                 let* s := index states i in
                 let* score := getitem s "score" in
                 let* s := index states i in
                 let* cost := getitem s "cost_per_habitant" in
                 let* s := index states i in
                 let* population := getitem s "population" in
                 Ok (Entry name c score cost population))
       (seq 0 n).

(** Line 121: [sorted(result, key=lambda d: d['closeness'], reverse=True)].
    The builtin is embedded by its contract, a stable sort: an insertion sort
    that puts an entry before the first one whose closeness is not greater. *)
Fixpoint insert_desc (x : entry) (l : list entry) : list entry :=
  match l with
  | [] => [x]
  | y :: l' =>
      if Rlt_dec (entry_closeness x) (entry_closeness y)
      then y :: insert_desc x l'
      else x :: l
  end.

Definition sorted_reverse (l : list entry) : list entry :=
  fold_right insert_desc [] l.

(** A dictionary of [result_sorted] once [r['rank'] = idx] has run. *)
Record ranked : Type := Ranked {
  ranked_entry : entry;
  rank : nat
}.

(** Lines 122-123: [for idx, r in enumerate(result_sorted, start=1)] *)
Definition assign_ranks (result_sorted : list entry) : list ranked :=
  map (fun ir => Ranked (snd ir) (fst ir))
      (combine (seq 1 (length result_sorted)) result_sorted).

(** ** The function *)

(** The locals of [topsis_rank_states] when its last statement has run. *)
Record locals : Type := Locals {
  names : list (value R);
  X : list (list R);
  col_norms : list R;
  Rm : list (list R);           (* [R] in the source *)
  weight_vec : list R;
  V : list (list R);
  A_plus : list R;
  A_minus : list R;
  S_plus : list R;
  S_minus : list R;
  closeness : list R;
  result_sorted : list ranked
}.

(** The body of [topsis_rank_states], lines 42-123. *)
Definition topsis_body (states : list State) (weights : option Weights)
    (benefit_flags : option Flags) (criteria_order : list string)
  : result locals :=
  let weights := match weights with
                 | None => default_weights
                 | Some w => w
                 end in
  let benefit_flags := match benefit_flags with
                       | None => default_benefit_flags
                       | Some f => f
                       end in
  let* _ := validate states weights benefit_flags criteria_order in
  let* names := mapM (fun s => getitem s "name") states in
  let* X := decision_matrix states criteria_order in
  let n := length states in
  let m := length criteria_order in
  let* col_norms := column_norms X n m in
  let* Rm := normalize X col_norms n m in
  let* weight_vec := weight_vector weights criteria_order in
  let* V := weighted Rm weight_vec n m in
  let* A := ideal_points V benefit_flags criteria_order n m in
  let A_plus := fst A in
  let A_minus := snd A in
  let* S_plus := distances V A_plus n m in
  let* S_minus := distances V A_minus n m in
  let* closeness := closeness_coefficients S_plus S_minus n in
  let* result := build_result names closeness states n in
  let result_sorted := assign_ranks (sorted_reverse result) in
  Ok (Locals names X col_norms Rm weight_vec V A_plus A_minus S_plus S_minus
        closeness result_sorted).

(** [topsis_rank_states]: the body has no [return] statement, so a call that
    raises nothing evaluates to [None]. *)
Definition topsis_rank_states (states : list State) (weights : option Weights)
    (benefit_flags : option Flags) (criteria_order : list string)
  : result (option (list ranked)) :=
  let* _ := topsis_body states weights benefit_flags criteria_order in
  Ok None.

(** ** Mathematical reading of the stages *)

(** [M[i][j]], and column [j] of a matrix of [n] rows. *)
Definition cell (M : list (list R)) (i j : nat) : R := nth j (nth i M []) 0.

Definition column (M : list (list R)) (n j : nat) : list R :=
  map (fun i => cell M i j) (seq 0 n).

(** The matrix of [n] rows and [m] columns whose entry [(i, j)] is [g i j]. *)
Definition table (n m : nat) (g : nat -> nat -> R) : list (list R) :=
  map (fun i => map (fun j => g i j) (seq 0 m)) (seq 0 n).

Definition shaped (n m : nat) (M : list (list R)) : Prop :=
  length M = n /\ Forall (fun row => length row = m) M.

(** The Euclidean norm of a column, and the divisor used for it. *)
Definition euclidean_norm (col : list R) : R :=
  sqrt (sum (map (fun x => x ^ 2) col)).

Definition divisor (norm : R) : R := if Req_dec_T norm 0 then 1 else norm.

(** The Euclidean distance of two vectors of [m] components. *)
Definition euclidean_distance (m : nat) (vec ref : list R) : R :=
  sqrt (sum (map (fun j => (nth j vec 0 - nth j ref 0) ^ 2) (seq 0 m))).

(** The closeness coefficient of the distances [sp] (to the ideal best) and
    [sm] (to the ideal worst). *)
Definition closeness_of (sp sm : R) : R :=
  if Req_dec_T (sp + sm) 0 then 0 else sm / (sp + sm).

(** The ideal best and worst of a column. *)
Definition ideal_pair (benefit : bool) (col : list R) : R * R :=
  match col with
  | [] => (0, 0)
  | x :: l =>
      if benefit then (fold_left Rmax l x, fold_left Rmin l x)
      else (fold_left Rmin l x, fold_left Rmax l x)
  end.

(** The number an entity holds for a criterion, and a field of an entity. *)
Definition criterion_value (s : State) (c : string) : R :=
  match s !! c with
  | Some (VNum x) => x
  | _ => 0
  end.

Definition field (s : State) (k : string) : value R :=
  default (VNum 0) (s !! k).

(** The total of the weights over the evaluation order. *)
Definition total_weight (weights : Weights) (criteria_order : list string) : R :=
  sum (map (fun c => default 0 (weights !! c)) criteria_order).

(** What the locals are on an input that passes every check. *)
Section Reading.
Variables (states : list State) (weights : Weights) (benefit_flags : Flags)
          (criteria_order : list string).
Let n : nat := length states.
Let m : nat := length criteria_order.

Definition names_of : list (value R) := map (fun s => field s "name") states.

Definition X_of : list (list R) :=
  map (fun s => map (criterion_value s) criteria_order) states.

Definition col_norms_of : list R :=
  map (fun j => divisor (euclidean_norm (column X_of n j))) (seq 0 m).

Definition Rm_of : list (list R) :=
  table n m (fun i j => cell X_of i j / nth j col_norms_of 0).

Definition weight_vec_of : list R :=
  map (fun w => w / total_weight weights criteria_order)
      (map (fun c => default 0 (weights !! c)) criteria_order).

Definition V_of : list (list R) :=
  table n m (fun i j => cell Rm_of i j * nth j weight_vec_of 0).

Definition ideal_pairs_of : list (R * R) :=
  map (fun j => ideal_pair
                  (default true (benefit_flags !! nth j criteria_order ""%string))
                  (column V_of n j))
      (seq 0 m).

Definition A_plus_of : list R := map fst ideal_pairs_of.
Definition A_minus_of : list R := map snd ideal_pairs_of.

Definition S_plus_of : list R :=
  map (fun i => euclidean_distance m (nth i V_of []) A_plus_of) (seq 0 n).

Definition S_minus_of : list R :=
  map (fun i => euclidean_distance m (nth i V_of []) A_minus_of) (seq 0 n).

Definition closeness_list_of : list R :=
  map (fun i => closeness_of (nth i S_plus_of 0) (nth i S_minus_of 0)) (seq 0 n).

(** The list [result], in input order. *)
Definition result_of : list entry :=
  map (fun i => Entry (nth i names_of (VNum 0)) (nth i closeness_list_of 0)
                  (field (nth i states ∅) "score")
                  (field (nth i states ∅) "cost_per_habitant")
                  (field (nth i states ∅) "population"))
      (seq 0 n).

Definition locals_of : locals :=
  Locals names_of X_of col_norms_of Rm_of weight_vec_of V_of A_plus_of A_minus_of
    S_plus_of S_minus_of closeness_list_of
    (assign_ranks (sorted_reverse result_of)).
End Reading.

(** ** Inputs that pass every check *)

(** Every criterion of the evaluation order has a weight and a flag. *)
Definition configured (weights : Weights) (benefit_flags : Flags)
    (criteria_order : list string) : Prop :=
  forall c, c ∈ criteria_order ->
    is_Some (weights !! c) /\ is_Some (benefit_flags !! c).

(** The entity has a number for every criterion of the evaluation order. *)
Definition numeric (criteria_order : list string) (s : State) : Prop :=
  forall c, c ∈ criteria_order -> exists x, s !! c = Some (VNum x).

(** The entity has the four entries the docstring asks for. *)
Definition described (s : State) : Prop :=
  is_Some (s !! "name") /\ is_Some (s !! "score") /\
  is_Some (s !! "cost_per_habitant") /\ is_Some (s !! "population").

(** The entity has an entry for every criterion of the evaluation order. *)
Definition present (criteria_order : list string) (s : State) : Prop :=
  forall c, c ∈ criteria_order -> is_Some (s !! c).



(** The entity has a name. *)
Definition named (s : State) : Prop := is_Some (s !! "name").




(** ** The example of the source's [__main__] *)

Definition mk_state (name : string) (score cost_per_habitant population : R) : State :=
  {[ "name" := VStr name; "score" := VNum score;
     "cost_per_habitant" := VNum cost_per_habitant;
     "population" := VNum population ]}.

Definition example_states : list State :=
  [ mk_state "State A" 78 1100 2500000;
    mk_state "State B" 85 1500 4000000;
    mk_state "State C" 72 900 1200000;
    mk_state "State D" 90 1700 3300000;
    mk_state "State E" 80 1000 2000000 ].






End Topsis.

(* ===================================================================== *)
(** * Facts about the error monad and ordered dictionaries               *)
(* ===================================================================== *)

Lemma bind_Ok {A B : Type} (m : result A) (k : A -> result B) (b : B) :
  bind m k = Ok b <-> exists a, m = Ok a /\ k a = Ok b.
Proof.
  destruct m as [a|e]; simpl; split.
  - intros H. exists a. auto.
  - intros (a' & Ha & Hk). congruence.
  - discriminate.
  - intros (a' & Ha & _). discriminate.
Qed.

Lemma mapM_Ok_map {A B : Type} (f : A -> result B) (g : A -> B) (l : list A) :
  (forall x, x ∈ l -> f x = Ok (g x)) -> mapM f l = Ok (map g l).
Proof.
  induction l as [|x l IH]; intros H; simpl; [reflexivity|].
  rewrite (H x) by left. simpl. rewrite IH; [reflexivity|].
  intros y Hy. apply H. now right.
Qed.

Lemma mapM_seq_Ok {B : Type} (f : nat -> result B) (g : nat -> B) (n : nat) :
  (forall i, (i < n)%nat -> f i = Ok (g i)) ->
  mapM f (seq 0 n) = Ok (map g (seq 0 n)).
Proof.
  intros H. apply mapM_Ok_map. intros i Hi.
  apply elem_of_seq in Hi. apply H. lia.
Qed.

Lemma mapM_Ok_length {A B : Type} (f : A -> result B) (l : list A) (l' : list B) :
  mapM f l = Ok l' -> length l' = length l.
Proof.
  revert l'. induction l as [|x l IH]; intros l'; simpl.
  - now intros [= <-].
  - intros H. apply bind_Ok in H as (y & _ & H).
    apply bind_Ok in H as (ys & Hys & [= <-]). simpl. f_equal. now apply IH.
Qed.

Lemma index_nth {A : Type} (d : A) (l : list A) (i : nat) :
  (i < length l)%nat -> index l i = Ok (nth i l d).
Proof.
  intros H. unfold index.
  destruct (lookup_lt_is_Some_2 l i H) as [x Hx]. rewrite Hx.
  now rewrite (nth_lookup_Some l i d x Hx).
Qed.


Section DictFacts.
Context {V : Type}.
Implicit Types (d : dict V) (k : string) (v : V).

Lemma dict_get_set_eq d k v : dict_get (dict_set d k v) k = Some v.
Proof.
  induction d as [|[k' v'] d IH]; simpl.
  - now rewrite String.eqb_refl.
  - destruct (String.eqb_spec k' k) as [->|Hne]; simpl.
    + now rewrite String.eqb_refl.
    + destruct (String.eqb_spec k' k); [contradiction | exact IH].
Qed.

Lemma dict_get_set_ne d k k0 v :
  k <> k0 -> dict_get (dict_set d k v) k0 = dict_get d k0.
Proof.
  intros Hne. induction d as [|[k' v'] d IH]; simpl.
  - destruct (String.eqb_spec k k0); [contradiction | reflexivity].
  - destruct (String.eqb_spec k' k) as [->|Hk]; simpl.
    + destruct (String.eqb_spec k k0); [contradiction | reflexivity].
    + destruct (String.eqb_spec k' k0); [reflexivity | exact IH].
Qed.

Lemma dict_get_keys d k : is_Some (dict_get d k) <-> k ∈ dict_keys d.
Proof.
  induction d as [|[k' v'] d IH]; simpl.
  - split; [intros [? [=]] | intros H; inversion H].
  - rewrite elem_of_cons. destruct (String.eqb_spec k' k) as [->|Hne].
    + split; eauto.
    + rewrite IH. split; [auto | intros [->|H]; [contradiction | exact H]].
Qed.

Lemma dict_keys_set_present d k v :
  is_Some (dict_get d k) -> dict_keys (dict_set d k v) = dict_keys d.
Proof.
  induction d as [|[k' v'] d IH]; simpl.
  - intros [? [=]].
  - destruct (String.eqb_spec k' k) as [->|Hne]; simpl; [reflexivity|].
    intros H. f_equal. exact (IH H).
Qed.

Lemma dict_set_fresh d k v : k ∉ dict_keys d -> dict_set d k v = d ++ [(k, v)].
Proof.
  induction d as [|[k' v'] d IH]; simpl; [reflexivity|].
  rewrite not_elem_of_cons. intros [Hne Hnin].
  destruct (String.eqb_spec k' k) as [->|_]; [contradiction|].
  now rewrite IH.
Qed.

(** A dictionary comprehension over the items of a dictionary rebuilds it. *)
Lemma dict_set_items (acc d : dict V) :
  NoDup (dict_keys (acc ++ d)) ->
  fold_left (fun a qb => dict_set a (fst qb) (snd qb)) d acc = acc ++ d.
Proof.
  revert acc. induction d as [|[k v] d IH]; intros acc Hnd; simpl.
  - now rewrite app_nil_r.
  - assert (Hfresh : k ∉ dict_keys acc).
    { unfold dict_keys in *. rewrite map_app in Hnd. simpl in Hnd.
      apply NoDup_app in Hnd as (_ & Hdis & _).
      intros Hin. apply (Hdis _ Hin). left. }
    rewrite (dict_set_fresh _ _ _ Hfresh), IH.
    + now rewrite <- app_assoc.
    + now rewrite <- app_assoc.
Qed.

Lemma dict_set_keys (w : V) (acc : dict V) (ks : list string) :
  NoDup (dict_keys acc ++ ks) ->
  fold_left (fun a q => dict_set a q w) ks acc = acc ++ map (fun q => (q, w)) ks.
Proof.
  revert acc. induction ks as [|k ks IH]; intros acc Hnd; simpl.
  - now rewrite app_nil_r.
  - assert (Hfresh : k ∉ dict_keys acc).
    { apply NoDup_app in Hnd as (_ & Hdis & _).
      intros Hin. apply (Hdis _ Hin). left. }
    rewrite (dict_set_fresh _ _ _ Hfresh), IH.
    + now rewrite <- app_assoc.
    + unfold dict_keys in *. rewrite map_app. simpl. now rewrite <- app_assoc.
Qed.

Lemma dict_get_map {W : Type} (g : V -> W) d k :
  dict_get (map (fun ql => (fst ql, g (snd ql))) d) k = g <$> dict_get d k.
Proof.
  induction d as [|[k' v'] d IH]; simpl; [reflexivity|].
  destruct (String.eqb k' k); [reflexivity | exact IH].
Qed.


Lemma dict_getitem_Ok d k v : dict_get d k = Some v -> dict_getitem d k = Ok v.
Proof. unfold dict_getitem. now intros ->. Qed.
End DictFacts.

(* ===================================================================== *)
(** * Properties of the allocation scheduler                             *)
(* ===================================================================== *)

Module ScheduleFacts.
Import Schedule.
Local Open Scope Q_scope.

(** ** Comparisons *)

Lemma Qle_bool_false (x y : Q) : Qle_bool x y = false -> y < x.
Proof.
  intros H. apply Qnot_le_lt. intros Hle.
  apply Qle_bool_iff in Hle. congruence.
Qed.

Lemma Qpositive_true (x : Q) : Qpositive x = true <-> 0 < x.
Proof.
  unfold Qpositive. split.
  - intros H. apply Qle_bool_false. now apply negb_true_iff.
  - intros H. apply negb_true_iff. destruct (Qle_bool x 0) eqn:E; [|reflexivity].
    apply Qle_bool_iff in E. lra.
Qed.

Lemma Qpositive_false (x : Q) : Qpositive x = false <-> x <= 0.
Proof.
  unfold Qpositive. rewrite negb_false_iff. apply Qle_bool_iff.
Qed.

Lemma fdiv_positive (x y : Q) : 0 < y -> fdiv x y = Ok (x / y).
Proof.
  intros Hy. unfold fdiv. destruct (Qeq_bool y 0) eqn:E; [|reflexivity].
  apply Qeq_bool_iff in E. lra.
Qed.

(** ** Sums of allocation records *)

Lemma allocated_sum_app (l1 l2 : list allocation) :
  allocated_sum (l1 ++ l2) == allocated_sum l1 + allocated_sum l2.
Proof.
  induction l1 as [|a l1 IH]; simpl.
  - lra.
  - fold (allocated_sum (l1 ++ l2)). fold (allocated_sum l1). lra.
Qed.

Lemma allocated_sum_nonneg (l : list allocation) :
  positive_amounts l -> 0 <= allocated_sum l.
Proof.
  induction 1 as [|a l Ha _ IH]; simpl.
  - lra.
  - fold (allocated_sum l). lra.
Qed.

(** ** [extends] is a preorder, and one allocation is a step of it *)

Lemma extends_refl r s : extends r s r s.
Proof.
  split; [reflexivity | reflexivity |].
  intros q b l Hb Hl. exists b, []. rewrite app_nil_r.
  repeat split; auto; try constructor. simpl. lra.
Qed.

Lemma extends_trans r1 s1 r2 s2 r3 s3 :
  extends r1 s1 r2 s2 -> extends r2 s2 r3 s3 -> extends r1 s1 r3 s3.
Proof.
  intros [Hr12 Hs12 H12] [Hr23 Hs23 H23]. split; [congruence | congruence |].
  intros q b l Hb Hl.
  destruct (H12 q b l Hb Hl) as (b2 & new2 & Hb2 & Hl2 & Hsum2 & Hpos2 & Hz2 & Hn2).
  destruct (H23 q b2 _ Hb2 Hl2) as (b3 & new3 & Hb3 & Hl3 & Hsum3 & Hpos3 & Hz3 & Hn3).
  exists b3, (new2 ++ new3). rewrite app_assoc.
  split; [exact Hb3|]. split; [exact Hl3|].
  split; [rewrite allocated_sum_app; lra|].
  split; [apply Forall_app; split; assumption|].
  split; [|auto].
  intros Hle. destruct (Hz2 Hle) as [-> ->].
  destruct (Hz3 Hle) as [-> ->]. auto.
Qed.

Lemma extends_allot r s q b l name allot :
  dict_get r q = Some b -> dict_get s q = Some l ->
  0 < allot -> allot <= b ->
  extends r s (dict_set r q (b - allot))
              (dict_set s q (l ++ [Allocation name allot])).
Proof.
  intros Hb Hl Hpos Hle. split.
  - apply dict_keys_set_present. eauto.
  - apply dict_keys_set_present. eauto.
  - intros q0 b0 l0 Hb0 Hl0. destruct (decide (q = q0)) as [<-|Hne].
    + assert (b0 = b) as -> by congruence. assert (l0 = l) as -> by congruence.
      exists (b - allot), [Allocation name allot].
      rewrite !dict_get_set_eq. repeat split.
      * simpl. lra.
      * constructor; [exact Hpos | constructor].
      * lra.
      * lra.
      * lra.
    + exists b0, []. rewrite !dict_get_set_ne by assumption. rewrite app_nil_r.
      repeat split; auto; try constructor. simpl. lra.
Qed.

(** ** The inner loop *)

Lemma fund_spec name qs f :
  (forall q, q ∈ qs ->
     is_Some (dict_get (remaining f) q) /\ is_Some (dict_get (schedule f) q)) ->
  exists f',
    fund name qs f = Ok f' /\
    extends (remaining f) (schedule f) (remaining f') (schedule f') /\
    need f' + allocated_total f' == need f + allocated_total f /\
    allocated_total f <= allocated_total f' /\
    (0 <= need f -> 0 <= need f').
Proof.
  revert f. induction qs as [|q qs IH]; intros f Hdom; simpl.
  - exists f. split; [reflexivity|]. split; [apply extends_refl|].
    repeat split; auto; lra.
  - destruct (Qle_bool (need f) 0) eqn:Hneed.
    { exists f. split; [reflexivity|]. split; [apply extends_refl|].
      repeat split; auto; lra. }
    apply Qle_bool_false in Hneed.
    destruct (Hdom q) as [[r Hr] [l Hl]]; [left|].
    assert (Hdom' : forall q', q' ∈ qs ->
              is_Some (dict_get (remaining f) q') /\
              is_Some (dict_get (schedule f) q')).
    { intros q' Hq'. apply Hdom. now right. }
    rewrite (dict_getitem_Ok _ _ _ Hr). simpl.
    destruct (Qle_bool r 0) eqn:Hr0; [exact (IH f Hdom')|].
    apply Qle_bool_false in Hr0.
    destruct (Qpositive (Qmin (need f) r)) eqn:Hallot; [|exact (IH f Hdom')].
    apply Qpositive_true in Hallot.
    rewrite (dict_getitem_Ok _ _ _ Hl). simpl.
    set (allot := Qmin (need f) r) in *.
    assert (Hle_need : allot <= need f) by apply Q.le_min_l.
    assert (Hle_r : allot <= r) by apply Q.le_min_r.
    pose proof (extends_allot _ _ q r l name allot Hr Hl Hallot Hle_r) as Hstep.
    set (f1 := Funding (dict_set (remaining f) q (r - allot))
                 (dict_set (schedule f) q (l ++ [Allocation name allot]))
                 (need f - allot) (allocated_total f + allot)).
    destruct (IH f1) as (f' & Hrun & Hext & Hsum & Hmono & Hnn).
    { intros q' Hq'. destruct (Hdom' q' Hq') as [[r' Hr'] [l' Hl']].
      destruct (Hstep.(ext_period _ _ _ _) q' r' l' Hr' Hl')
        as (b' & new & Hb' & Hnew & _).
      simpl. eauto. }
    exists f'. split; [exact Hrun|]. simpl in *.
    split; [exact (extends_trans _ _ _ _ _ _ Hstep Hext)|].
    repeat split; lra.
Qed.

(** ** One entity, and the loop over the entities *)

Lemma compute_state_cost_well_formed (s : State) :
  well_formed s -> exists c, compute_state_cost s = Ok c.
Proof.
  intros (_ & c & p & Hc & Hp). exists (c * p).
  unfold compute_state_cost, getitem. now rewrite Hc, Hp.
Qed.

Lemma fund_state_spec (s : State) (p : pass) :
  well_formed s -> aligned p ->
  exists p' c,
    fund_state s p = Ok p' /\
    extends (pass_remaining p) (pass_schedule p)
            (pass_remaining p') (pass_schedule p') /\
    pass_coverage p' = pass_coverage p ++ [c] /\
    covers s c.
Proof.
  intros Hwf Hal. pose proof Hwf as ([name Hname] & _).
  destruct (compute_state_cost_well_formed s Hwf) as [total Htotal].
  destruct (fund_spec name (dict_keys (pass_remaining p))
              (Funding (pass_remaining p) (pass_schedule p) total 0))
    as (f & Hrun & Hext & Hsum & Hmono & Hnn).
  { simpl. intros q Hq. split; apply dict_get_keys; [exact Hq|].
    now rewrite Hal. }
  simpl in *. unfold fund_state, getitem.
  rewrite Hname. simpl. rewrite Htotal. simpl. rewrite Hrun. simpl.
  destruct (Qpositive total) eqn:Hpos.
  - apply Qpositive_true in Hpos. rewrite (fdiv_positive _ _ Hpos). simpl.
    eexists _, _. split; [reflexivity|]. split; [exact Hext|].
    split; [reflexivity|]. unfold covers, getitem. simpl.
    rewrite Hname. split; [reflexivity|]. split; [exact Htotal|].
    split; [lra|]. split; [intros Hle; specialize (Hnn Hle); lra|].
    split; [apply Qle_bool_iff|].
    split; intros H; first [reflexivity | exfalso; lra].
  - apply Qpositive_false in Hpos. simpl.
    eexists _, _. split; [reflexivity|]. split; [exact Hext|].
    split; [reflexivity|]. unfold covers, getitem. simpl.
    rewrite Hname. split; [reflexivity|]. split; [exact Htotal|].
    split; [lra|]. split; [intros Hle; specialize (Hnn Hle); lra|].
    split; [apply Qle_bool_iff|].
    split; intros H; first [reflexivity | exfalso; lra].
Qed.

Lemma extends_aligned (p p' : pass) :
  aligned p ->
  extends (pass_remaining p) (pass_schedule p)
          (pass_remaining p') (pass_schedule p') ->
  aligned p'.
Proof.
  unfold aligned. intros Hal [Hr Hs _]. congruence.
Qed.

Lemma fund_states_spec (states : list State) (p : pass) :
  Forall well_formed states -> aligned p ->
  exists p' cs,
    fund_states states p = Ok p' /\
    extends (pass_remaining p) (pass_schedule p)
            (pass_remaining p') (pass_schedule p') /\
    pass_coverage p' = pass_coverage p ++ cs /\
    Forall2 covers states cs.
Proof.
  intros Hwf. revert p. induction Hwf as [|s states Hs _ IH]; intros p Hal; simpl.
  - exists p, []. rewrite app_nil_r. split; [reflexivity|].
    split; [apply extends_refl|]. split; [reflexivity | constructor].
  - destruct (fund_state_spec s p Hs Hal) as (p1 & c & Hrun1 & Hext1 & Hcov1 & Hc).
    destruct (IH p1 (extends_aligned _ _ Hal Hext1))
      as (p' & cs & Hrun & Hext & Hcov & Hcs).
    exists p', (c :: cs). rewrite Hrun1. simpl.
    split; [exact Hrun|]. split; [exact (extends_trans _ _ _ _ _ _ Hext1 Hext)|].
    split; [|now constructor].
    rewrite Hcov, Hcov1, <- app_assoc. reflexivity.
Qed.

Lemma fund_states_app (l1 l2 : list State) (p : pass) :
  fund_states (l1 ++ l2) p = (let* p1 := fund_states l1 p in fund_states l2 p1).
Proof.
  revert p. induction l1 as [|s l1 IH]; intros p; simpl; [reflexivity|].
  destruct (fund_state s p) as [p1|e]; simpl; [apply IH | reflexivity].
Qed.

(** ** The initial state and the returned dictionary *)

Lemma initial_pass_NoDup (budgets : Budgets) :
  NoDup (dict_keys budgets) ->
  initial_pass budgets =
    Pass budgets (map (fun q => (q, [])) (dict_keys budgets)) [].
Proof.
  intros Hnd. unfold initial_pass.
  rewrite (dict_set_items [] budgets) by exact Hnd.
  rewrite (dict_set_keys [] [] (dict_keys budgets)) by exact Hnd.
  reflexivity.
Qed.

Lemma initial_schedule_get (ks : list string) (q : string) :
  q ∈ ks ->
  dict_get (map (fun q => (q, @nil allocation)) ks) q = Some [].
Proof.
  induction ks as [|k ks IH]; simpl.
  - intros H. inversion H.
  - intros H. destruct (String.eqb_spec k q) as [->|Hne]; [reflexivity|].
    apply IH. apply elem_of_cons in H as [->|H]; [contradiction | exact H].
Qed.

Lemma initial_pass_aligned (budgets : Budgets) :
  NoDup (dict_keys budgets) -> aligned (initial_pass budgets).
Proof.
  intros Hnd. rewrite (initial_pass_NoDup _ Hnd). unfold aligned. simpl.
  unfold dict_keys. rewrite map_map. simpl. now rewrite map_id.
Qed.

(** What the pass has reached from the budgets, once it has run. *)
Lemma allocation_pass_spec (states : list State) (budgets : Budgets) :
  NoDup (dict_keys budgets) -> Forall well_formed states ->
  exists p,
    allocation_pass states budgets = Ok p /\
    extends budgets (map (fun q => (q, [])) (dict_keys budgets))
            (pass_remaining p) (pass_schedule p) /\
    Forall2 covers states (pass_coverage p).
Proof.
  intros Hnd Hwf. unfold allocation_pass.
  destruct (fund_states_spec states (initial_pass budgets) Hwf
              (initial_pass_aligned _ Hnd)) as (p & cs & Hrun & Hext & Hcov & Hcs).
  rewrite (initial_pass_NoDup _ Hnd) in Hext, Hcov. simpl in *.
  exists p. subst. auto.
Qed.

Lemma finish_allocations (p : pass) (q : string) :
  q <> "remaining_budgets"%string -> q <> "coverage"%string ->
  allocations_of (finish p) q = dict_get (pass_schedule p) q.
Proof.
  intros H1 H2. unfold allocations_of, finish.
  rewrite !dict_get_set_ne by congruence.
  rewrite (dict_get_map Allocations).
  now destruct (dict_get (pass_schedule p) q).
Qed.

Lemma finish_remaining (p : pass) (q : string) :
  remaining_of (finish p) q = dict_get (pass_remaining p) q.
Proof.
  unfold remaining_of, finish.
  rewrite dict_get_set_ne by discriminate.
  now rewrite dict_get_set_eq.
Qed.

Lemma finish_coverage (p : pass) :
  coverage_of (finish p) = Some (pass_coverage p).
Proof.
  unfold coverage_of, finish. now rewrite dict_get_set_eq.
Qed.

Lemma finish_reserved (p : pass) (q : string) :
  q = "remaining_budgets"%string \/ q = "coverage"%string ->
  allocations_of (finish p) q = None.
Proof.
  unfold allocations_of, finish. intros [-> | ->].
  - rewrite dict_get_set_ne by discriminate. now rewrite dict_get_set_eq.
  - now rewrite dict_get_set_eq.
Qed.

(** ** Concrete inputs *)

Lemma example_states_well_formed : Forall well_formed example_states.
Proof.
  repeat (apply List.Forall_cons;
          [split; [eexists; reflexivity | eexists _, _; split; reflexivity]|]).
  apply List.Forall_nil.
Qed.


Lemma budgets_small_NoDup : NoDup (dict_keys budgets_small).
Proof. apply (bool_decide_unpack _). vm_compute. exact I. Qed.

Lemma state_A_well_formed : Forall well_formed [state_A].
Proof.
  apply List.Forall_cons; [|apply List.Forall_nil].
  split; [eexists; reflexivity | eexists _, _; split; reflexivity].
Qed.

(** ** The scenarios of the specification *)

(** Entities A (cost 2,750,000,000) and B (cost 6,000,000,000), budgets
    q1 = 100,000 and q2 = 500,000: A is covered for 600,000 / 2,750,000,000,
    neither entity is fully funded and nothing remains in either period. *)
Example scenario_small_budgets :
  exists out,
    schedule_allow_split (take 2 example_states)
      [("q1", 100000); ("q2", 500000)] = Ok out /\
    remaining_of out "q1" = Some 0 /\ remaining_of out "q2" = Some 0 /\
    exists a b,
      coverage_of out = Some [a; b] /\
      cov_total_cost a = 2750000000 /\ cov_total_cost b = 6000000000 /\
      cov_coverage_pct a == 600000 / 2750000000 /\
      cov_fully_funded a = false /\ cov_fully_funded b = false.
Proof.
  eexists. split; [vm_compute; reflexivity|].
  split; [reflexivity|]. split; [reflexivity|].
  eexists _, _. split; [reflexivity|]. repeat split.
Qed.

(** One entity of cost 1,000 and one period budgeted exactly 1,000: the
    entity is funded in full and nothing remains. *)
Example scenario_exact_budget :
  exists out,
    schedule_allow_split [mk_state "S" 0 10 100] [("q1", 1000)] = Ok out /\
    allocations_of out "q1" = Some [Allocation (VStr "S") 1000] /\
    remaining_of out "q1" = Some 0 /\
    exists c,
      coverage_of out = Some [c] /\
      cov_coverage_pct c == 1 /\ cov_fully_funded c = true.
Proof.
  eexists. split; [vm_compute; reflexivity|].
  split; [reflexivity|]. split; [reflexivity|].
  eexists. split; [reflexivity|]. split; reflexivity.
Qed.

(** ** Budget conservation *)

(** C2, as stated, at a period named like one of the two reserved keys: the
    budget mapping [{"coverage": 10}] and one entity of cost 4.  The pass
    allocates 4 under the period and leaves 6, but the returned mapping holds
    the coverage list under ["coverage"], so there is no list of allocation
    records under that period whose amounts could be summed. *)
Lemma budget_conservation_reserved_period :
  exists out,
    schedule_allow_split [state_A] [("coverage", 10)] = Ok out /\
    dict_get [("coverage", 10)] "coverage" = Some 10 /\
    ~ (exists l r,
         allocations_of out "coverage" = Some l /\
         remaining_of out "coverage" = Some r /\
         allocated_sum l + r == 10).
Proof.
  eexists. split; [vm_compute; reflexivity|]. split; [reflexivity|].
  intros (l & r & Hl & _). vm_compute in Hl. discriminate.
Qed.

(** C2 (amended): for every period of the budget mapping whose identifier is
    neither ["remaining_budgets"] nor ["coverage"], the returned mapping holds
    the period's list of allocation records and its remaining budget, and the
    sum of the recorded amounts plus the remaining budget is the period's
    original budget (in exact arithmetic). *)
Theorem budget_conservation (states : list State) (budgets : Budgets) :
  NoDup (dict_keys budgets) ->
  Forall well_formed states ->
  exists out,
    schedule_allow_split states budgets = Ok out /\
    forall q b,
      dict_get budgets q = Some b ->
      q <> "remaining_budgets"%string -> q <> "coverage"%string ->
      exists l r,
        allocations_of out q = Some l /\
        remaining_of out q = Some r /\
        allocated_sum l + r == b.
Proof.
  intros Hnd Hwf.
  destruct (allocation_pass_spec states budgets Hnd Hwf) as (p & Hrun & Hext & _).
  exists (finish p). unfold schedule_allow_split. rewrite Hrun. simpl.
  split; [reflexivity|]. intros q b Hb Hq1 Hq2.
  assert (Hq : q ∈ dict_keys budgets) by (apply dict_get_keys; eauto).
  destruct (Hext.(ext_period _ _ _ _) q b [] Hb (initial_schedule_get _ _ Hq))
    as (b' & new & Hb' & Hnew & Hsum & _).
  exists new, b'.
  rewrite finish_allocations by assumption. rewrite finish_remaining. auto.
Qed.

Lemma budget_conservation_witness :
  exists out,
    schedule_allow_split example_states budgets_small = Ok out /\
    forall q b,
      dict_get budgets_small q = Some b ->
      q <> "remaining_budgets"%string -> q <> "coverage"%string ->
      exists l r,
        allocations_of out q = Some l /\
        remaining_of out q = Some r /\
        allocated_sum l + r == b.
Proof.
  apply (budget_conservation example_states budgets_small).
  - apply (bool_decide_unpack _). vm_compute. exact I.
  - exact example_states_well_formed.
Defined.

(** ** Coverage records *)



(** ** The budgets during the pass *)

(** C8: take the pass at two moments, after the entities [before] and after
    the further entities [after], with non-negative budgets.  For every
    period, the remaining budget at the later moment is not negative and not
    above the one at the earlier moment, which is not above the original
    budget; the period's list has only grown; if the remaining budget was
    zero at the earlier moment, the list and the budget are unchanged, so the
    period has contributed nothing to the later entities; and every recorded
    amount is positive. *)
Theorem remaining_budgets_monotone (before after : list State) (budgets : Budgets) :
  NoDup (dict_keys budgets) ->
  Forall (fun qb => 0 <= snd qb) budgets ->
  Forall well_formed (before ++ after) ->
  exists p1 p2,
    allocation_pass before budgets = Ok p1 /\
    allocation_pass (before ++ after) budgets = Ok p2 /\
    forall q b,
      dict_get budgets q = Some b ->
      exists r1 r2 l1 new,
        dict_get (pass_remaining p1) q = Some r1 /\
        dict_get (pass_remaining p2) q = Some r2 /\
        dict_get (pass_schedule p1) q = Some l1 /\
        dict_get (pass_schedule p2) q = Some (l1 ++ new) /\
        0 <= r2 /\ r2 <= r1 /\ r1 <= b /\
        (r1 == 0 -> new = [] /\ r2 = r1) /\
        positive_amounts (l1 ++ new).
Proof.
  intros Hnd Hnn Hwf. apply Forall_app in Hwf as [Hwf1 Hwf2].
  destruct (allocation_pass_spec before budgets Hnd Hwf1) as (p1 & Hrun1 & Hext1 & _).
  assert (Hal1 : aligned p1).
  { destruct Hext1 as [Hr Hs _]. unfold aligned. rewrite Hr, Hs.
    unfold dict_keys. rewrite map_map. simpl. now rewrite map_id. }
  destruct (fund_states_spec after p1 Hwf2 Hal1) as (p2 & cs & Hrun2 & Hext2 & _).
  exists p1, p2. split; [exact Hrun1|]. split.
  { unfold allocation_pass in *. rewrite fund_states_app, Hrun1. exact Hrun2. }
  intros q b Hb.
  assert (Hq : q ∈ dict_keys budgets) by (apply dict_get_keys; eauto).
  assert (Hb0 : 0 <= b).
  { clear -Hnn Hb. induction Hnn as [|[k v] d Hv _ IH]; simpl in *; [discriminate|].
    destruct (String.eqb k q); [injection Hb as <-; exact Hv | exact (IH Hb)]. }
  destruct (Hext1.(ext_period _ _ _ _) q b [] Hb (initial_schedule_get _ _ Hq))
    as (r1 & l1 & Hr1 & Hl1 & Hsum1 & Hpos1 & _ & Hnn1).
  destruct (Hext2.(ext_period _ _ _ _) q r1 _ Hr1 Hl1)
    as (r2 & new & Hr2 & Hl2 & Hsum2 & Hpos2 & Hz2 & Hnn2).
  simpl in *. exists r1, r2, l1, new.
  pose proof (allocated_sum_nonneg _ Hpos1). pose proof (allocated_sum_nonneg _ Hpos2).
  specialize (Hnn1 Hb0). specialize (Hnn2 Hnn1).
  repeat split; auto; try lra.
  - apply Hz2. lra.
  - apply Hz2. lra.
  - apply Forall_app. split; assumption.
Qed.

Lemma remaining_budgets_monotone_witness :
  exists p1 p2,
    allocation_pass (take 1 example_states) budgets_small = Ok p1 /\
    allocation_pass (take 1 example_states ++ drop 1 example_states)
      budgets_small = Ok p2 /\
    forall q b,
      dict_get budgets_small q = Some b ->
      exists r1 r2 l1 new,
        dict_get (pass_remaining p1) q = Some r1 /\
        dict_get (pass_remaining p2) q = Some r2 /\
        dict_get (pass_schedule p1) q = Some l1 /\
        dict_get (pass_schedule p2) q = Some (l1 ++ new) /\
        0 <= r2 /\ r2 <= r1 /\ r1 <= b /\
        (r1 == 0 -> new = [] /\ r2 = r1) /\
        positive_amounts (l1 ++ new).
Proof.
  apply (remaining_budgets_monotone (take 1 example_states) (drop 1 example_states)
           budgets_small).
  - apply (bool_decide_unpack _). vm_compute. exact I.
  - repeat (apply List.Forall_cons; [discriminate|]). apply List.Forall_nil.
  - exact example_states_well_formed.
Defined.

(** ** Periods named like a reserved key *)

(** C10: when the budget mapping has a period named ["remaining_budgets"] or
    ["coverage"], the pass keeps a list of allocation records for it, but the
    returned mapping does not hold a list of allocation records under that
    key: the remaining-budget map or the coverage list has been stored over
    it. *)
Theorem reserved_period_overwritten (states : list State) (budgets : Budgets)
    (q : string) :
  NoDup (dict_keys budgets) ->
  Forall well_formed states ->
  q ∈ dict_keys budgets ->
  q = "remaining_budgets"%string \/ q = "coverage"%string ->
  exists p l out,
    allocation_pass states budgets = Ok p /\
    dict_get (pass_schedule p) q = Some l /\
    schedule_allow_split states budgets = Ok out /\
    allocations_of out q = None /\
    (q = "remaining_budgets"%string ->
       dict_get out q = Some (RemainingBudgets (pass_remaining p))) /\
    (q = "coverage"%string ->
       dict_get out q = Some (Coverage (pass_coverage p))).
Proof.
  intros Hnd Hwf Hq Hres.
  destruct (allocation_pass_spec states budgets Hnd Hwf) as (p & Hrun & Hext & _).
  destruct (proj2 (dict_get_keys budgets q) Hq) as [b Hb].
  destruct (Hext.(ext_period _ _ _ _) q b [] Hb (initial_schedule_get _ _ Hq))
    as (b' & new & _ & Hnew & _).
  exists p, new, (finish p). unfold schedule_allow_split. rewrite Hrun. simpl.
  split; [reflexivity|]. split; [exact Hnew|]. split; [reflexivity|].
  split; [exact (finish_reserved p q Hres)|].
  unfold finish. split; intros ->.
  - rewrite dict_get_set_ne by discriminate. apply dict_get_set_eq.
  - apply dict_get_set_eq.
Qed.

Lemma reserved_period_overwritten_witness :
  exists p l out,
    allocation_pass [state_A] [("coverage", 10)] = Ok p /\
    dict_get (pass_schedule p) "coverage" = Some l /\
    schedule_allow_split [state_A] [("coverage", 10)] = Ok out /\
    allocations_of out "coverage" = None /\
    ("coverage"%string = "remaining_budgets"%string ->
       dict_get out "coverage" = Some (RemainingBudgets (pass_remaining p))) /\
    ("coverage"%string = "coverage"%string ->
       dict_get out "coverage" = Some (Coverage (pass_coverage p))).
Proof.
  apply (reserved_period_overwritten [state_A] [("coverage", 10)] "coverage").
  - apply (bool_decide_unpack _). vm_compute. exact I.
  - exact state_A_well_formed.
  - apply (bool_decide_unpack _). vm_compute. exact I.
  - right. reflexivity.
Defined.

End ScheduleFacts.

(* ===================================================================== *)
(** * Properties of the ranking engine                                   *)
(* ===================================================================== *)

Module TopsisFacts.
Import Topsis.
Local Open Scope R_scope.

(** ** Sums, norms and divisions *)







Lemma divisor_nonzero (norm : R) : divisor norm <> 0.
Proof. unfold divisor. destruct (Req_dec_T norm 0); lra. Qed.

Lemma truediv_Ok (x y : R) : y <> 0 -> truediv x y = Ok (x / y).
Proof. intros H. unfold truediv. now destruct (Req_dec_T y 0). Qed.

(** ** Matrices *)

Lemma shaped_row (n m : nat) (M : list (list R)) (i : nat) :
  shaped n m M -> (i < n)%nat -> length (nth i M []) = m.
Proof.
  intros [Hn Hrows] Hi. subst n.
  destruct (lookup_lt_is_Some_2 M i Hi) as [row Hrow].
  rewrite (nth_lookup_Some M i [] row Hrow).
  exact (proj1 (Forall_lookup _ M) Hrows i row Hrow).
Qed.

Lemma table_shaped (n m : nat) (g : nat -> nat -> R) : shaped n m (table n m g).
Proof.
  unfold shaped, table. split.
  - now rewrite length_map, length_seq.
  - apply Forall_forall. intros row Hrow.
    apply list_elem_of_fmap in Hrow as (i & -> & _).
    now rewrite length_map, length_seq.
Qed.


Lemma X_of_shaped (states : list State) (criteria_order : list string) :
  shaped (length states) (length criteria_order) (X_of states criteria_order).
Proof.
  unfold shaped, X_of. split.
  - now rewrite length_map.
  - apply Forall_forall. intros row Hrow.
    apply list_elem_of_fmap in Hrow as (s & -> & _). now rewrite length_map.
Qed.

(** Reading [M[i][j]] inside a comprehension over [range(n)] and [range(m)]. *)
Lemma index_cell (n m : nat) (M : list (list R)) (i j : nat)
    {B : Type} (k : R -> result B) :
  shaped n m M -> (i < n)%nat -> (j < m)%nat ->
  (let* row := index M i in let* x := index row j in k x) = k (cell M i j).
Proof.
  intros HM Hi Hj. pose proof (shaped_row n m M i HM Hi) as Hrow.
  destruct HM as [Hn _].
  rewrite (index_nth [] M i) by lia. cbn [bind].
  rewrite (index_nth 0 (nth i M []) j) by lia. reflexivity.
Qed.

(** ** The stages, one by one *)

Lemma for_each_Ok {A : Type} (f : A -> result unit) (l : list A) :
  (forall x, x ∈ l -> f x = Ok tt) -> for_each f l = Ok tt.
Proof.
  induction l as [|x l IH]; intros H; simpl; [reflexivity|].
  rewrite (H x) by left. simpl. apply IH. intros y Hy. apply H. now right.
Qed.

Lemma validate_Ok states weights benefit_flags criteria_order :
  configured weights benefit_flags criteria_order ->
  Forall (numeric criteria_order) states ->
  validate states weights benefit_flags criteria_order = Ok tt.
Proof.
  intros Hconf Hnum. unfold validate.
  rewrite for_each_Ok.
  - cbn [bind]. apply for_each_Ok. intros s Hs.
    apply for_each_Ok. intros c Hc.
    destruct (proj1 (Forall_forall _ _) Hnum s Hs c Hc) as [x ->]. reflexivity.
  - intros c Hc. destruct (Hconf c Hc) as [[w Hw] [b Hb]].
    unfold check_criterion. now rewrite Hw, Hb.
Qed.

Lemma names_Ok (states : list State) :
  Forall described states ->
  mapM (fun s => getitem s "name") states = Ok (names_of states).
Proof.
  intros Hd. apply mapM_Ok_map. intros s Hs.
  destruct (proj1 (Forall_forall _ _) Hd s Hs) as ([v Hv] & _).
  unfold getitem, field. now rewrite Hv.
Qed.

Lemma decision_matrix_Ok states criteria_order :
  Forall (numeric criteria_order) states ->
  decision_matrix states criteria_order = Ok (X_of states criteria_order).
Proof.
  intros Hnum. apply mapM_Ok_map. intros s Hs.
  apply mapM_Ok_map. intros c Hc.
  destruct (proj1 (Forall_forall _ _) Hnum s Hs c Hc) as [x Hx].
  unfold getitem, criterion_value. now rewrite Hx.
Qed.

Lemma column_norms_Ok (M : list (list R)) (n m : nat) :
  shaped n m M ->
  column_norms M n m =
    Ok (map (fun j => divisor (euclidean_norm (column M n j))) (seq 0 m)).
Proof.
  intros HM. apply mapM_seq_Ok. intros j Hj.
  rewrite (mapM_seq_Ok _ (fun i => cell M i j ^ 2)).
  - cbn [bind]. unfold divisor, euclidean_norm, column. now rewrite map_map.
  - intros i Hi. now apply (index_cell n m).
Qed.

Lemma normalize_Ok (M : list (list R)) (norms : list R) (n m : nat) :
  shaped n m M -> length norms = m -> Forall (fun d => d <> 0) norms ->
  normalize M norms n m = Ok (table n m (fun i j => cell M i j / nth j norms 0)).
Proof.
  intros HM Hlen Hnz. apply mapM_seq_Ok. intros i Hi.
  apply mapM_seq_Ok. intros j Hj.
  rewrite (index_cell n m) by assumption.
  rewrite (index_nth 0 norms j) by lia. cbn [bind].
  apply truediv_Ok.
  apply (proj1 (Forall_forall _ _) Hnz). apply list_elem_of_lookup.
  exists j.
  destruct (lookup_lt_is_Some_2 norms j) as [d Hd]; [lia|].
  now rewrite (nth_lookup_Some _ _ 0 _ Hd).
Qed.

Lemma weight_vector_Ok (weights : Weights) (criteria_order : list string) :
  (forall c, c ∈ criteria_order -> is_Some (weights !! c)) ->
  0 < total_weight weights criteria_order ->
  weight_vector weights criteria_order = Ok (weight_vec_of weights criteria_order).
Proof.
  intros Hw Htotal. unfold weight_vector.
  rewrite (mapM_Ok_map _ (fun c => default 0 (weights !! c))).
  - cbn [bind]. fold (total_weight weights criteria_order).
    destruct (Rle_dec (total_weight weights criteria_order) 0); [lra|].
    apply mapM_Ok_map. intros w _. apply truediv_Ok. lra.
  - intros c Hc. destruct (Hw c Hc) as [w Hw']. unfold getitem. now rewrite Hw'.
Qed.


Lemma weighted_Ok (M : list (list R)) (w : list R) (n m : nat) :
  shaped n m M -> length w = m ->
  weighted M w n m = Ok (table n m (fun i j => cell M i j * nth j w 0)).
Proof.
  intros HM Hlen. apply mapM_seq_Ok. intros i Hi.
  apply mapM_seq_Ok. intros j Hj.
  rewrite (index_cell n m) by assumption.
  now rewrite (index_nth 0 w j) by lia.
Qed.

Lemma column_Ok (M : list (list R)) (n m j : nat) :
  shaped n m M -> (j < m)%nat ->
  mapM (fun i => let* row := index M i in index row j) (seq 0 n) = Ok (column M n j).
Proof.
  intros HM Hj. apply mapM_seq_Ok. intros i Hi.
  pose proof (shaped_row n m M i HM Hi) as Hrow. destruct HM as [Hn _].
  rewrite (index_nth [] M i) by lia. cbn [bind].
  now rewrite (index_nth 0 (nth i M []) j) by lia.
Qed.

Lemma column_nonempty (M : list (list R)) (n j : nat) :
  (0 < n)%nat -> exists x l, column M n j = x :: l.
Proof.
  intros Hn. destruct n as [|n]; [lia|]. unfold column. simpl. eauto.
Qed.

Lemma ideal_points_Ok (M : list (list R)) (benefit_flags : Flags)
    (criteria_order : list string) (n : nat) :
  shaped n (length criteria_order) M -> (0 < n)%nat ->
  (forall c, c ∈ criteria_order -> is_Some (benefit_flags !! c)) ->
  ideal_points M benefit_flags criteria_order n (length criteria_order) =
    Ok (map fst (map (fun j => ideal_pair
                        (default true (benefit_flags !! nth j criteria_order ""%string))
                        (column M n j)) (seq 0 (length criteria_order))),
        map snd (map (fun j => ideal_pair
                        (default true (benefit_flags !! nth j criteria_order ""%string))
                        (column M n j)) (seq 0 (length criteria_order)))).
Proof.
  intros HM Hn Hflags. unfold ideal_points.
  erewrite mapM_seq_Ok; [reflexivity|].
  intros j Hj. cbn beta.
  rewrite (column_Ok M n (length criteria_order) j HM Hj). cbn [bind].
  rewrite (index_nth ""%string criteria_order j Hj). cbn [bind].
  destruct (Hflags (nth j criteria_order ""%string)) as [b Hb].
  { apply list_elem_of_lookup. exists j.
    destruct (lookup_lt_is_Some_2 criteria_order j Hj) as [c Hc].
    now rewrite (nth_lookup_Some _ _ ""%string _ Hc). }
  unfold getitem. rewrite Hb. cbn [bind default].
  destruct (column_nonempty M n j Hn) as (x & l & ->).
  destruct b; reflexivity.
Qed.

(** Without entities every column is empty, and [max] or [min] raises. *)
Lemma ideal_points_empty (M : list (list R)) (benefit_flags : Flags)
    (c : string) (criteria_order : list string) :
  is_Some (benefit_flags !! c) ->
  ideal_points M benefit_flags (c :: criteria_order) 0
    (length (c :: criteria_order)) = Raise (ValueError EmptySequence).
Proof.
  intros [b Hb]. unfold ideal_points, getitem, index. simpl.
  rewrite Hb. now destruct b.
Qed.

Lemma euclidean_dist_Ok (m : nat) (vec ref : list R) :
  length vec = m -> length ref = m ->
  euclidean_dist m vec ref = Ok (euclidean_distance m vec ref).
Proof.
  intros Hvec Href. unfold euclidean_dist.
  rewrite (mapM_seq_Ok _ (fun j => (nth j vec 0 - nth j ref 0) ^ 2)); [reflexivity|].
  intros j Hj. rewrite (index_nth 0 vec j) by lia. cbn [bind].
  now rewrite (index_nth 0 ref j) by lia.
Qed.

Lemma distances_Ok (M : list (list R)) (ref : list R) (n m : nat) :
  shaped n m M -> length ref = m ->
  distances M ref n m =
    Ok (map (fun i => euclidean_distance m (nth i M []) ref) (seq 0 n)).
Proof.
  intros HM Href. apply mapM_seq_Ok. intros i Hi.
  pose proof (shaped_row n m M i HM Hi) as Hrow. destruct HM as [Hn _].
  rewrite (index_nth [] M i) by lia. cbn [bind].
  now apply euclidean_dist_Ok.
Qed.

Lemma closeness_coefficients_Ok (sp sm : list R) (n : nat) :
  length sp = n -> length sm = n ->
  closeness_coefficients sp sm n =
    Ok (map (fun i => closeness_of (nth i sp 0) (nth i sm 0)) (seq 0 n)).
Proof.
  intros Hsp Hsm. apply mapM_seq_Ok. intros i Hi.
  rewrite (index_nth 0 sp i) by lia. cbn [bind].
  rewrite (index_nth 0 sm i) by lia. cbn [bind].
  unfold closeness_of. destruct (Req_dec_T (nth i sp 0 + nth i sm 0) 0) as [|Hne];
    [reflexivity|].
  now apply truediv_Ok.
Qed.

Lemma build_result_Ok (nms : list (value R)) (cl : list R) (states : list State) :
  length nms = length states -> length cl = length states ->
  Forall described states ->
  build_result nms cl states (length states) =
    Ok (map (fun i => Entry (nth i nms (VNum 0)) (nth i cl 0)
                        (field (nth i states ∅) "score")
                        (field (nth i states ∅) "cost_per_habitant")
                        (field (nth i states ∅) "population"))
            (seq 0 (length states))).
Proof.
  intros Hn Hc Hd. apply mapM_seq_Ok. intros i Hi.
  rewrite (index_nth (VNum 0) nms i) by lia. cbn [bind].
  rewrite (index_nth 0 cl i) by lia. cbn [bind].
  rewrite (index_nth ∅ states i) by lia. cbn [bind].
  destruct (lookup_lt_is_Some_2 states i Hi) as [s Hs].
  rewrite (nth_lookup_Some _ _ ∅ _ Hs).
  destruct (proj1 (Forall_lookup _ states) Hd i s Hs)
    as (_ & [v1 H1] & [v2 H2] & [v3 H3]).
  unfold getitem, field. now rewrite H1, H2, H3.
Qed.

(** ** The whole body *)

Lemma length_map_seq {B : Type} (g : nat -> B) (n : nat) :
  length (map g (seq 0 n)) = n.
Proof. now rewrite length_map, length_seq. Qed.

Lemma Rm_of_shaped states criteria_order :
  shaped (length states) (length criteria_order) (Rm_of states criteria_order).
Proof. apply table_shaped. Qed.

Lemma V_of_shaped states weights criteria_order :
  shaped (length states) (length criteria_order) (V_of states weights criteria_order).
Proof. apply table_shaped. Qed.

(** On an input that passes every check and has an entity, the body raises
    nothing and its locals are the mathematical reading of the stages. *)
Lemma topsis_body_Ok states weights benefit_flags criteria_order :
  states <> [] ->
  configured weights benefit_flags criteria_order ->
  Forall (numeric criteria_order) states ->
  Forall described states ->
  0 < total_weight weights criteria_order ->
  topsis_body states (Some weights) (Some benefit_flags) criteria_order =
    Ok (locals_of states weights benefit_flags criteria_order).
Proof.
  intros Hne Hconf Hnum Hdesc Htotal. unfold topsis_body.
  rewrite (validate_Ok _ _ _ _ Hconf Hnum). cbn [bind].
  rewrite (names_Ok _ Hdesc). cbn [bind].
  rewrite (decision_matrix_Ok _ _ Hnum). cbn [bind].
  rewrite (column_norms_Ok _ _ _ (X_of_shaped states criteria_order)). cbn [bind].
  fold (col_norms_of states criteria_order).
  rewrite (normalize_Ok _ _ _ _ (X_of_shaped states criteria_order)).
  2: { apply length_map_seq. }
  2: { apply Forall_forall. intros d Hd.
       apply list_elem_of_fmap in Hd as (j & -> & _). apply divisor_nonzero. }
  cbn [bind]. fold (Rm_of states criteria_order).
  rewrite weight_vector_Ok; [|intros c Hc; apply (Hconf c Hc) | exact Htotal].
  cbn [bind].
  rewrite (weighted_Ok _ _ _ _ (Rm_of_shaped states criteria_order)).
  2: { unfold weight_vec_of. now rewrite !length_map. }
  cbn [bind]. fold (V_of states weights criteria_order).
  rewrite (ideal_points_Ok _ benefit_flags criteria_order _
             (V_of_shaped states weights criteria_order)).
  2: { destruct states; [contradiction | simpl; lia]. }
  2: { intros c Hc. apply (Hconf c Hc). }
  cbn [bind fst snd].
  fold (ideal_pairs_of states weights benefit_flags criteria_order).
  fold (A_plus_of states weights benefit_flags criteria_order).
  fold (A_minus_of states weights benefit_flags criteria_order).
  rewrite (distances_Ok _ _ _ _ (V_of_shaped states weights criteria_order)).
  2: { unfold A_plus_of, ideal_pairs_of. rewrite length_map. apply length_map_seq. }
  cbn [bind]. fold (S_plus_of states weights benefit_flags criteria_order).
  rewrite (distances_Ok _ _ _ _ (V_of_shaped states weights criteria_order)).
  2: { unfold A_minus_of, ideal_pairs_of. rewrite length_map. apply length_map_seq. }
  cbn [bind]. fold (S_minus_of states weights benefit_flags criteria_order).
  rewrite (closeness_coefficients_Ok _ _ (length states)).
  2, 3: apply length_map_seq.
  cbn [bind]. fold (closeness_list_of states weights benefit_flags criteria_order).
  rewrite build_result_Ok.
  2: { unfold names_of. now rewrite length_map. }
  2: { apply length_map_seq. }
  2: { exact Hdesc. }
  cbn [bind]. reflexivity.
Qed.

(** On such an input the call returns [None]. *)
Lemma topsis_rank_states_None states weights benefit_flags criteria_order :
  states <> [] ->
  configured weights benefit_flags criteria_order ->
  Forall (numeric criteria_order) states ->
  Forall described states ->
  0 < total_weight weights criteria_order ->
  topsis_rank_states states (Some weights) (Some benefit_flags) criteria_order =
    Ok None.
Proof.
  intros Hne Hconf Hnum Hdesc Htotal. unfold topsis_rank_states.
  now rewrite (topsis_body_Ok _ _ _ _ Hne Hconf Hnum Hdesc Htotal).
Qed.

(** Without entities, and with at least one criterion, the call raises the
    [ValueError] of [max] or [min]. *)
Lemma topsis_rank_states_empty weights benefit_flags c criteria_order :
  configured weights benefit_flags (c :: criteria_order) ->
  0 < total_weight weights (c :: criteria_order) ->
  topsis_rank_states [] (Some weights) (Some benefit_flags) (c :: criteria_order) =
    Raise (ValueError EmptySequence).
Proof.
  intros Hconf Htotal. unfold topsis_rank_states, topsis_body.
  rewrite (validate_Ok _ _ _ _ Hconf (List.Forall_nil _)). cbn [bind mapM].
  rewrite (decision_matrix_Ok [] (c :: criteria_order) (List.Forall_nil _)).
  cbn [bind].
  rewrite (column_norms_Ok _ _ _ (X_of_shaped [] (c :: criteria_order))).
  cbn [bind].
  rewrite (normalize_Ok _ _ _ _ (X_of_shaped [] (c :: criteria_order))).
  2: { apply length_map_seq. }
  2: { apply Forall_forall. intros d Hd.
       apply list_elem_of_fmap in Hd as (j & -> & _). apply divisor_nonzero. }
  cbn [bind].
  rewrite weight_vector_Ok; [|intros c' Hc'; apply (Hconf c' Hc') | exact Htotal].
  cbn [bind].
  rewrite (weighted_Ok _ _ (length (@nil State)) (length (c :: criteria_order))
             (table_shaped _ _ _)).
  2: { unfold weight_vec_of. now rewrite !length_map. }
  cbn [bind].
  change (length (@nil State)) with 0%nat.
  rewrite ideal_points_empty; [reflexivity|].
  apply (Hconf c). left.
Qed.

(** ** When the validation fails *)







(** ** The sort *)









(** ** The defaults and the example *)

Lemma default_configured :
  configured default_weights default_benefit_flags default_criteria_order.
Proof.
  intros c Hc. unfold default_criteria_order in Hc.
  repeat (apply elem_of_cons in Hc as [->|Hc]);
    [split; eexists; reflexivity .. | inversion Hc].
Qed.

Lemma default_total_weight :
  total_weight default_weights default_criteria_order = 1.
Proof.
  unfold total_weight, sum, default_criteria_order. cbn [map fold_left].
  change (default_weights !! "score"%string) with (Some 0.6).
  change (default_weights !! "cost_per_habitant"%string) with (Some 0.3).
  change (default_weights !! "population"%string) with (Some 0.1).
  cbn [from_option]. unfold Datatypes.id. lra.
Qed.

Lemma mk_state_numeric (name : string) (a b c : R) :
  numeric default_criteria_order (mk_state name a b c).
Proof.
  intros k Hk. unfold default_criteria_order in Hk.
  repeat (apply elem_of_cons in Hk as [->|Hk]);
    [eexists; reflexivity .. | inversion Hk].
Qed.

Lemma mk_state_described (name : string) (a b c : R) :
  described (mk_state name a b c).
Proof. repeat split; eexists; reflexivity. Qed.

Lemma example_states_numeric :
  Forall (numeric default_criteria_order) example_states.
Proof. repeat (apply List.Forall_cons; [apply mk_state_numeric|]). apply List.Forall_nil. Qed.

Lemma example_states_described : Forall described example_states.
Proof. repeat (apply List.Forall_cons; [apply mk_state_described|]). apply List.Forall_nil. Qed.

Lemma default_total_weight_positive :
  0 < total_weight default_weights default_criteria_order.
Proof. rewrite default_total_weight. lra. Qed.

(** ** The value returned *)

(** C1 (the code departs from it): the five entities of the source's own
    [__main__], with the default weights, flags and evaluation order, meet
    every precondition of the claim, and the call raises nothing; but it
    evaluates to [None], not to a list of five ranked records. *)
Theorem topsis_rank_states_returns_None :
  example_states <> [] /\
  configured default_weights default_benefit_flags default_criteria_order /\
  Forall (numeric default_criteria_order) example_states /\
  0 < total_weight default_weights default_criteria_order /\
  topsis_rank_states example_states None None default_criteria_order = Ok None.
Proof.
  split; [discriminate|]. split; [exact default_configured|].
  split; [exact example_states_numeric|].
  split; [exact default_total_weight_positive|].
  change (topsis_rank_states example_states (Some default_weights)
            (Some default_benefit_flags) default_criteria_order = Ok None).
  apply topsis_rank_states_None.
  - discriminate.
  - exact default_configured.
  - exact example_states_numeric.
  - exact example_states_described.
  - exact default_total_weight_positive.
Qed.

(** ** Validation errors *)

(** C4 (the code departs from it): with no entity at all, and the default
    weights, flags and evaluation order, every criterion has a weight and a
    flag, no entity lacks a value and the total weight is positive; yet the
    call raises a [ValueError], that of [max] on an empty column. *)
Theorem topsis_rank_states_empty_raises :
  configured default_weights default_benefit_flags default_criteria_order /\
  Forall (numeric default_criteria_order) [] /\
  0 < total_weight default_weights default_criteria_order /\
  topsis_rank_states [] None None default_criteria_order =
    Raise (ValueError EmptySequence).
Proof.
  split; [exact default_configured|]. split; [constructor|].
  split; [exact default_total_weight_positive|].
  change (topsis_rank_states [] (Some default_weights)
            (Some default_benefit_flags) default_criteria_order =
          Raise (ValueError EmptySequence)).
  apply topsis_rank_states_empty.
  - exact default_configured.
  - exact default_total_weight_positive.
Qed.

(** ** The default weighting *)


(** ** Normalization *)



(** ** The ideal points *)




(** ** The closeness coefficient *)







(** ** The order of the ranking *)





End TopsisFacts.

(* ===================================================================== *)
(** * Further properties of the allocation scheduler                     *)
(* ===================================================================== *)

Module ScheduleExtra.
Import Schedule ScheduleFacts.
Local Open Scope Q_scope.

(** ** Entities that cannot be read *)

Lemma fund_states_Raise (pre post : list State) (s : State) (p p1 : pass) (e : exn) :
  fund_states pre p = Ok p1 -> fund_state s p1 = Raise e ->
  fund_states (pre ++ s :: post) p = Raise e.
Proof.
  intros Hpre Hs. rewrite fund_states_app, Hpre. simpl. now rewrite Hs.
Qed.

Lemma fund_state_missing_name (s : State) (p : pass) :
  s !! "name"%string = None -> fund_state s p = Raise (KeyError "name").
Proof. intros H. unfold fund_state, getitem. now rewrite H. Qed.

Lemma fund_state_missing_cost (s : State) (p : pass) :
  is_Some (s !! "name"%string) -> s !! "cost_per_habitant"%string = None ->
  fund_state s p = Raise (KeyError "cost_per_habitant").
Proof.
  intros [n Hn] H. unfold fund_state, compute_state_cost, getitem.
  now rewrite Hn, H.
Qed.

Lemma fund_state_missing_population (s : State) (p : pass) (c : Q) :
  is_Some (s !! "name"%string) ->
  s !! "cost_per_habitant"%string = Some (VNum c) ->
  s !! "population"%string = None ->
  fund_state s p = Raise (KeyError "population").
Proof.
  intros [n Hn] Hc H. unfold fund_state, compute_state_cost, getitem.
  now rewrite Hn, Hc, H.
Qed.

(** X1: an entity without name, cost per habitant or population makes the whole
    call fail with a [KeyError] for the first of these keys that is missing,
    however many entities were funded before it: no partial result is
    returned. *)
Theorem missing_entry_raises (pre post : list State) (s : State) (budgets : Budgets) :
  NoDup (dict_keys budgets) ->
  Forall well_formed pre ->
  (s !! "name"%string = None ->
   schedule_allow_split (pre ++ s :: post) budgets = Raise (KeyError "name")) /\
  (is_Some (s !! "name"%string) -> s !! "cost_per_habitant"%string = None ->
   schedule_allow_split (pre ++ s :: post) budgets =
     Raise (KeyError "cost_per_habitant")) /\
  (forall c, is_Some (s !! "name"%string) ->
   s !! "cost_per_habitant"%string = Some (VNum c) ->
   s !! "population"%string = None ->
   schedule_allow_split (pre ++ s :: post) budgets = Raise (KeyError "population")).
Proof.
  intros Hnd Hwf.
  destruct (allocation_pass_spec pre budgets Hnd Hwf) as (p1 & Hrun & _).
  unfold schedule_allow_split, allocation_pass in *.
  split; [|split].
  - intros H. now rewrite (fund_states_Raise pre post s _ p1 _ Hrun
                             (fund_state_missing_name s p1 H)).
  - intros Hn H. now rewrite (fund_states_Raise pre post s _ p1 _ Hrun
                                (fund_state_missing_cost s p1 Hn H)).
  - intros c Hn Hc H.
    now rewrite (fund_states_Raise pre post s _ p1 _ Hrun
                   (fund_state_missing_population s p1 c Hn Hc H)).
Qed.

Lemma missing_entry_raises_witness :
  ((∅ : State) !! "name"%string = None ->
   schedule_allow_split ([state_A] ++ ∅ :: [state_A]) budgets_small =
     Raise (KeyError "name")) /\
  (is_Some ((∅ : State) !! "name"%string) ->
   (∅ : State) !! "cost_per_habitant"%string = None ->
   schedule_allow_split ([state_A] ++ ∅ :: [state_A]) budgets_small =
     Raise (KeyError "cost_per_habitant")) /\
  (forall c, is_Some ((∅ : State) !! "name"%string) ->
   (∅ : State) !! "cost_per_habitant"%string = Some (VNum c) ->
   (∅ : State) !! "population"%string = None ->
   schedule_allow_split ([state_A] ++ ∅ :: [state_A]) budgets_small =
     Raise (KeyError "population")).
Proof.
  apply (missing_entry_raises [state_A] [state_A] ∅ budgets_small).
  - exact budgets_small_NoDup.
  - exact state_A_well_formed.
Defined.

(** ** No entity *)



(** ** The inner loop as a sequence of steps *)

Lemma fund_rtc (name : value Q) (qs : list string) (f f' : funding) :
  fund name qs f = Ok f' -> rtc (fund_step name) f f'.
Proof.
  revert f. induction qs as [|q qs IH]; intros f; simpl.
  - intros [= <-]. apply rtc_refl.
  - destruct (Qle_bool (need f) 0) eqn:Hneed.
    { intros [= <-]. apply rtc_refl. }
    apply Qle_bool_false in Hneed. unfold dict_getitem.
    destruct (dict_get (remaining f) q) as [r|] eqn:Hr; [|discriminate]. simpl.
    destruct (Qle_bool r 0) eqn:Hr0; [apply IH|].
    apply Qle_bool_false in Hr0.
    destruct (Qpositive (Qmin (need f) r)); [|apply IH].
    destruct (dict_get (schedule f) q) as [l|] eqn:Hl; [|discriminate]. simpl.
    intros Hrun. eapply rtc_l; [|exact (IH _ Hrun)].
    now apply FundStep.
Qed.

(** ** Sums over dictionaries *)





(** ** What the steps keep *)

Lemma Forall_dict_set {V : Type} (P : string * V -> Prop) (d : dict V)
    (q : string) (v v' : V) :
  dict_get d q = Some v -> Forall P d -> P (q, v') -> Forall P (dict_set d q v').
Proof.
  induction d as [|[k w] d IH]; simpl; [discriminate|].
  intros Hget Hall Hv. apply Forall_cons in Hall as [Hk Hall].
  destruct (String.eqb_spec k q) as [->|Hne].
  - now constructor.
  - constructor; [exact Hk | now apply IH].
Qed.

Lemma fund_step_keeps (name : value Q) (f f' : funding) :
  fund_step name f f' ->
  extends (remaining f) (schedule f) (remaining f') (schedule f') /\
  allocated_total f <= allocated_total f' /\
  (Forall (fun qb => 0 <= snd qb) (remaining f) ->
   Forall (fun qb => 0 <= snd qb) (remaining f')) /\
  (forall q b, dict_get (remaining f) q = Some b -> b <= 0 ->
               dict_get (remaining f') q = Some b) /\
  0 <= need f'.
Proof.
  intros [f0 q r l Hr Hl Hneed Hpos]. simpl.
  assert (Hallot : 0 < Qmin (need f0) r) by now apply Q.min_glb_lt.
  assert (Hle : Qmin (need f0) r <= r) by apply Q.le_min_r.
  assert (Hle' : Qmin (need f0) r <= need f0) by apply Q.le_min_l.
  split; [now apply extends_allot|]. split; [lra|]. split; [|split; [|lra]].
  - intros Hnn. eapply Forall_dict_set; [exact Hr | exact Hnn | simpl; lra].
  - intros q' b Hb Hb0. destruct (decide (q = q')) as [<-|Hne].
    + assert (b = r) by congruence. subst b. lra.
    + now rewrite dict_get_set_ne.
Qed.

Lemma fund_keeps (name : value Q) (qs : list string) (f f' : funding) :
  fund name qs f = Ok f' ->
  extends (remaining f) (schedule f) (remaining f') (schedule f') /\
  allocated_total f <= allocated_total f' /\
  (Forall (fun qb => 0 <= snd qb) (remaining f) ->
   Forall (fun qb => 0 <= snd qb) (remaining f')) /\
  (forall q b, dict_get (remaining f) q = Some b -> b <= 0 ->
               dict_get (remaining f') q = Some b) /\
  (0 <= need f -> 0 <= need f').
Proof.
  intros Hrun. apply fund_rtc in Hrun.
  induction Hrun as [f|f f1 f' Hstep _ IH].
  - split; [apply extends_refl|]. split; [lra|]. auto.
  - destruct (fund_step_keeps name f f1 Hstep) as (E1 & A1 & N1 & Z1 & P1).
    destruct IH as (E2 & A2 & N2 & Z2 & P2).
    split; [exact (extends_trans _ _ _ _ _ _ E1 E2)|].
    split; [lra|]. split; [auto|]. split; [|auto].
    intros q b Hb Hb0. apply Z2; [now apply Z1 | exact Hb0].
Qed.


(** ** Totals *)




(** ** One entity *)

Lemma fund_state_inv (s : State) (p p' : pass) :
  fund_state s p = Ok p' ->
  exists name total f c,
    getitem s "name" = Ok name /\
    compute_state_cost s = Ok total /\
    fund name (dict_keys (pass_remaining p))
      (Funding (pass_remaining p) (pass_schedule p) total 0) = Ok f /\
    p' = Pass (remaining f) (schedule f) (pass_coverage p ++ [c]) /\
    c = CoverageRecord name total (allocated_total f)
          (if Qpositive total then allocated_total f / total else 0)
          (Qle_bool total (allocated_total f)).
Proof.
  unfold fund_state. intros H.
  apply bind_Ok in H as (name & Hname & H).
  apply bind_Ok in H as (total & Htotal & H).
  apply bind_Ok in H as (f & Hf & H).
  apply bind_Ok in H as (pct & Hpct & [= <-]).
  exists name, total, f. eexists. repeat split; try eassumption.
  destruct (Qpositive total); [|now injection Hpct as <-].
  unfold fdiv in Hpct. destruct (Qeq_bool total 0); [discriminate|].
  now injection Hpct as <-.
Qed.



(** ** All the entities *)






(** ** The greedy rule *)

















(** ** Records and coverage *)






(** ** Coverage fractions *)

Lemma fund_states_Forall2 (P : State -> coverage_record -> Prop) :
  (forall s p p', fund_state s p = Ok p' ->
     exists c, pass_coverage p' = pass_coverage p ++ [c] /\ P s c) ->
  forall states p p', fund_states states p = Ok p' ->
    exists cs, pass_coverage p' = pass_coverage p ++ cs /\ Forall2 P states cs.
Proof.
  intros Hone. induction states as [|s states IH]; intros p p' Hrun.
  - injection Hrun as <-. exists []. rewrite app_nil_r. split; [reflexivity | constructor].
  - simpl in Hrun. apply bind_Ok in Hrun as (p1 & Hs & Hrun).
    destruct (Hone s p p1 Hs) as (c & Hcov1 & Hc).
    destruct (IH p1 p' Hrun) as (cs & Hcov & Hcs).
    exists (c :: cs). split; [|now constructor].
    rewrite Hcov, Hcov1, <- app_assoc. reflexivity.
Qed.

(** X9: an entity whose total cost is zero or negative is allocated nothing and
    has coverage fraction 0, and is reported as fully funded. *)
Theorem costless_entity (states : list State) (budgets : Budgets) :
  NoDup (dict_keys budgets) ->
  Forall well_formed states ->
  exists out cs,
    schedule_allow_split states budgets = Ok out /\
    coverage_of out = Some cs /\
    Forall2 (fun s c =>
               compute_state_cost s = Ok (cov_total_cost c) /\
               (cov_total_cost c <= 0 ->
                cov_allocated c = 0 /\ cov_coverage_pct c = 0 /\
                cov_fully_funded c = true))
            states cs.
Proof.
  intros Hnd Hwf.
  destruct (allocation_pass_spec states budgets Hnd Hwf) as (p & Hrun & _).
  exists (finish p), (pass_coverage p). unfold schedule_allow_split.
  rewrite Hrun. simpl. split; [reflexivity|]. split; [apply finish_coverage|].
  unfold allocation_pass in Hrun.
  destruct (fund_states_Forall2
              (fun s c => compute_state_cost s = Ok (cov_total_cost c) /\
                 (cov_total_cost c <= 0 ->
                  cov_allocated c = 0 /\ cov_coverage_pct c = 0 /\
                  cov_fully_funded c = true))) with (2 := Hrun) as (cs & Hcov & Hcs).
  - clear. intros s p p' Hrun.
    destruct (fund_state_inv s p p' Hrun)
      as (name & total & f & c & Hname & Htotal & Hf & -> & ->).
    eexists. split; [reflexivity|]. cbn. split; [exact Htotal|]. intros Hle.
    assert (Hf' : f = Funding (pass_remaining p) (pass_schedule p) total 0).
    { destruct (dict_keys (pass_remaining p)) as [|q qs]; simpl in Hf;
        [congruence|].
      rewrite (proj2 (Qle_bool_iff total 0) Hle) in Hf. congruence. }
    subst f. cbn. rewrite (proj2 (Qpositive_false total) Hle).
    repeat split. now apply Qle_bool_iff.
  - rewrite (initial_pass_NoDup _ Hnd) in Hcov. simpl in Hcov. now subst cs.
Qed.

Lemma costless_entity_witness :
  exists out cs,
    schedule_allow_split [mk_state "Z" 1 5 0; state_A] budgets_small = Ok out /\
    coverage_of out = Some cs /\
    Forall2 (fun s c =>
               compute_state_cost s = Ok (cov_total_cost c) /\
               (cov_total_cost c <= 0 ->
                cov_allocated c = 0 /\ cov_coverage_pct c = 0 /\
                cov_fully_funded c = true))
            [mk_state "Z" 1 5 0; state_A] cs.
Proof.
  apply (costless_entity [mk_state "Z" 1 5 0; state_A] budgets_small).
  - exact budgets_small_NoDup.
  - repeat (apply List.Forall_cons;
            [split; [eexists; reflexivity | eexists _, _; split; reflexivity]|]).
    apply List.Forall_nil.
Defined.



(** ** The order in which the periods are used *)

Lemma before_done (done qs : list string) (q q1 : string) (i j : nat) :
  NoDup (done ++ q :: qs) ->
  (done ++ q :: qs) !! i = Some q1 -> (done ++ q :: qs) !! j = Some q ->
  (i < j)%nat ->
  q1 ∈ done /\ q1 <> q.
Proof.
  intros Hnd Hi Hj Hij.
  assert (Hq : (done ++ q :: qs) !! length done = Some q).
  { rewrite lookup_app_r by lia. now rewrite Nat.sub_diag. }
  assert (j = length done) by (eapply NoDup_lookup; eauto). subst j.
  split.
  - rewrite lookup_app_l in Hi by exact Hij.
    apply list_elem_of_lookup. eauto.
  - intros ->. assert (i = length done) by (eapply NoDup_lookup; eauto). lia.
Qed.

Lemma fund_in_order (name : value Q) (done qs : list string) (f f' : funding) :
  fund name qs f = Ok f' ->
  dict_keys (remaining f) = done ++ qs ->
  NoDup (dict_keys (remaining f)) ->
  in_order (remaining f) (schedule f) ->
  (need f <= 0 \/
   forall q, q ∈ done -> exists b, dict_get (remaining f) q = Some b /\ b <= 0) ->
  in_order (remaining f') (schedule f').
Proof.
  revert f done. induction qs as [|q qs IH]; intros f done; simpl.
  - now intros [= <-].
  - destruct (Qle_bool (need f) 0) eqn:Hneed; [now intros [= <-]|].
    apply Qle_bool_false in Hneed. unfold dict_getitem.
    destruct (dict_get (remaining f) q) as [r|] eqn:Hr; [|discriminate]. simpl.
    intros Hrun Hkeys Hnd Hord [Hdone | Hdone]; [lra|].
    destruct (Qle_bool r 0) eqn:Hr0.
    { apply Qle_bool_iff in Hr0. apply (IH f (done ++ [q]) Hrun); auto.
      - now rewrite <- app_assoc.
      - right. intros q' Hq'. apply elem_of_app in Hq' as [Hq' | Hq']; [auto|].
        apply list_elem_of_singleton in Hq' as ->. eauto. }
    apply Qle_bool_false in Hr0.
    destruct (Qpositive (Qmin (need f) r)) eqn:Hallot.
    2: { apply Qpositive_false in Hallot.
         pose proof (Q.min_glb_lt (need f) r 0 Hneed Hr0). lra. }
    destruct (dict_get (schedule f) q) as [l|] eqn:Hl; [|discriminate].
    simpl in Hrun.
    assert (Hkeys1 : dict_keys (dict_set (remaining f) q (r - Qmin (need f) r)) =
                     dict_keys (remaining f))
      by (apply dict_keys_set_present; eauto).
    apply (IH _ (done ++ [q]) Hrun); cbn [remaining schedule need].
    + now rewrite Hkeys1, <- app_assoc.
    + now rewrite Hkeys1.
    + intros q1 q2 l2 (i & j & Hij & Hi & Hj) Hl2 Hne.
      rewrite Hkeys1 in Hi, Hj.
      destruct (decide (q2 = q)) as [->|Hq2].
      * rewrite Hkeys in Hi, Hj, Hnd.
        destruct (before_done done qs q q1 i j Hnd Hi Hj Hij) as [Hin Hq1].
        destruct (Hdone q1 Hin) as (b & Hb & Hb0).
        exists b. split; [|exact Hb0].
        now rewrite dict_get_set_ne by congruence.
      * rewrite dict_get_set_ne in Hl2 by congruence.
        destruct (Hord q1 q2 l2) as (b & Hb & Hb0); [exists i, j; auto | auto ..|].
        exists b. split; [|exact Hb0].
        destruct (decide (q1 = q)) as [->|Hq1]; [|now rewrite dict_get_set_ne by congruence].
        assert (b = r) by congruence. subst b. lra.
    + destruct (Q.min_spec (need f) r) as [[Hlt Hmin] | [Hle Hmin]]; [left; lra|].
      right. intros q' Hq'. apply elem_of_app in Hq' as [Hq' | Hq'].
      * destruct (Hdone q' Hq') as (b & Hb & Hb0). exists b. split; [|exact Hb0].
        rewrite dict_get_set_ne; [exact Hb|]. intros ->.
        rewrite Hkeys in Hnd. apply NoDup_app in Hnd as (_ & Hdis & _).
        apply (Hdis q' Hq'). left.
      * apply list_elem_of_singleton in Hq' as ->.
        exists (r - Qmin (need f) r). split; [apply dict_get_set_eq | lra].
Qed.

Lemma fund_states_in_order (states : list State) (p p' : pass) :
  fund_states states p = Ok p' ->
  NoDup (dict_keys (pass_remaining p)) ->
  in_order (pass_remaining p) (pass_schedule p) ->
  in_order (pass_remaining p') (pass_schedule p').
Proof.
  revert p. induction states as [|s states IH]; intros p Hrun Hnd Hord.
  - now injection Hrun as <-.
  - simpl in Hrun. apply bind_Ok in Hrun as (p1 & Hs & Hrun).
    destruct (fund_state_inv s p p1 Hs)
      as (name & total & f & c & _ & _ & Hf & -> & _).
    pose proof (fund_keeps _ _ _ _ Hf) as ([Hkeys _ _] & _).
    apply (IH _ Hrun); cbn [pass_remaining pass_schedule remaining] in *.
    + now rewrite Hkeys.
    + apply (fund_in_order name [] _ _ f Hf); auto.
      right. intros q Hq. inversion Hq.
Qed.

(** X11: the periods are used in the order of the budget mapping: when the
    returned mapping holds an allocation record under a period, every period
    standing before it in the budget mapping has no budget left. *)
Theorem periods_used_in_order (states : list State) (budgets : Budgets) :
  NoDup (dict_keys budgets) ->
  Forall well_formed states ->
  exists out,
    schedule_allow_split states budgets = Ok out /\
    forall q1 q2 l,
      before budgets q1 q2 ->
      allocations_of out q2 = Some l -> l <> [] ->
      exists b, remaining_of out q1 = Some b /\ b <= 0.
Proof.
  intros Hnd Hwf.
  destruct (allocation_pass_spec states budgets Hnd Hwf) as (p & Hrun & Hext & _).
  exists (finish p). unfold schedule_allow_split. rewrite Hrun. simpl.
  split; [reflexivity|]. intros q1 q2 l Hbefore Hl Hne.
  rewrite finish_remaining.
  unfold allocation_pass in Hrun. rewrite (initial_pass_NoDup _ Hnd) in Hrun.
  assert (Hord : in_order (pass_remaining p) (pass_schedule p)).
  { apply (fund_states_in_order states _ p Hrun); cbn; [exact Hnd|].
    intros k1 k2 l2 _ Hl2 Hne2. exfalso. apply Hne2.
    clear -Hl2. induction (dict_keys budgets) as [|k ks IH]; simpl in Hl2;
      [discriminate|].
    destruct (String.eqb k k2); [congruence | auto]. }
  assert (Hl' : dict_get (pass_schedule p) q2 = Some l).
  { destruct (decide (q2 = "remaining_budgets"%string)) as [->|H1].
    { rewrite finish_reserved in Hl by now left. discriminate. }
    destruct (decide (q2 = "coverage"%string)) as [->|H2].
    { rewrite finish_reserved in Hl by now right. discriminate. }
    now rewrite finish_allocations in Hl. }
  apply (Hord q1 q2 l); auto.
  destruct Hbefore as (i & j & Hij & Hi & Hj). exists i, j.
  destruct Hext as [Hkeys _ _]. now rewrite Hkeys.
Qed.

Lemma periods_used_in_order_witness :
  exists out,
    schedule_allow_split example_states budgets_small = Ok out /\
    forall q1 q2 l,
      before budgets_small q1 q2 ->
      allocations_of out q2 = Some l -> l <> [] ->
      exists b, remaining_of out q1 = Some b /\ b <= 0.
Proof.
  apply (periods_used_in_order example_states budgets_small).
  - exact budgets_small_NoDup.
  - exact example_states_well_formed.
Defined.

(** ** Funding in two batches *)

Lemma same_growth_refl (s t : dict (list allocation)) : same_growth s s t t.
Proof.
  split; [reflexivity|]. split; [reflexivity|].
  intros q l k Hl Hk. exists []. now rewrite !app_nil_r.
Qed.

Lemma same_growth_trans (s1 s2 s3 t1 t2 t3 : dict (list allocation)) :
  same_growth s1 s2 t1 t2 -> same_growth s2 s3 t2 t3 -> same_growth s1 s3 t1 t3.
Proof.
  intros (Hs12 & Ht12 & H12) (Hs23 & Ht23 & H23).
  split; [congruence|]. split; [congruence|].
  intros q l k Hl Hk. destruct (H12 q l k Hl Hk) as (new1 & Hl2 & Hk2).
  destruct (H23 q _ _ Hl2 Hk2) as (new2 & Hl3 & Hk3).
  exists (new1 ++ new2). now rewrite !app_assoc.
Qed.

Lemma same_growth_step (s t : dict (list allocation)) (q : string)
    (l k : list allocation) (a : allocation) :
  dict_get s q = Some l -> dict_get t q = Some k ->
  same_growth s (dict_set s q (l ++ [a])) t (dict_set t q (k ++ [a])).
Proof.
  intros Hl Hk. split; [apply dict_keys_set_present; eauto|].
  split; [apply dict_keys_set_present; eauto|].
  intros q' l' k' Hl' Hk'. destruct (decide (q = q')) as [<-|Hne].
  - exists [a]. rewrite !dict_get_set_eq. split; congruence.
  - exists []. rewrite !dict_get_set_ne by assumption. now rewrite !app_nil_r.
Qed.

(** The loop does not read the lists it appends to. *)
Lemma fund_frame (name : value Q) (qs : list string) (f f' : funding)
    (t : dict (list allocation)) :
  fund name qs f = Ok f' ->
  dict_keys t = dict_keys (schedule f) ->
  exists t',
    fund name qs (Funding (remaining f) t (need f) (allocated_total f)) =
      Ok (Funding (remaining f') t' (need f') (allocated_total f')) /\
    same_growth (schedule f) (schedule f') t t'.
Proof.
  revert f t. induction qs as [|q qs IH]; intros f t; simpl.
  - intros [= <-] _. exists t. split; [reflexivity | apply same_growth_refl].
  - destruct (Qle_bool (need f) 0) eqn:Hneed.
    { intros [= <-] _. exists t. split; [reflexivity | apply same_growth_refl]. }
    unfold dict_getitem.
    destruct (dict_get (remaining f) q) as [r|] eqn:Hr; [|discriminate].
    cbn [bind]. destruct (Qle_bool r 0) eqn:Hr0.
    { intros Hrun Hkeys. destruct (IH f t Hrun Hkeys) as (t' & Hrun' & Hg).
      exists t'. split; [exact Hrun' | exact Hg]. }
    destruct (Qpositive (Qmin (need f) r)) eqn:Hallot.
    2: { intros Hrun Hkeys. destruct (IH f t Hrun Hkeys) as (t' & Hrun' & Hg).
         exists t'. split; [exact Hrun' | exact Hg]. }
    destruct (dict_get (schedule f) q) as [l|] eqn:Hl; [|discriminate].
    cbn [bind]. intros Hrun Hkeys.
    destruct (proj2 (dict_get_keys t q)) as [k Hk].
    { rewrite Hkeys. apply dict_get_keys. eauto. }
    cbn [schedule]. rewrite Hk. cbn [bind].
    pose proof (same_growth_step _ _ q l k
                  (Allocation name (Qmin (need f) r)) Hl Hk) as Hstep.
    destruct (IH _ (dict_set t q (k ++ [Allocation name (Qmin (need f) r)])) Hrun)
      as (t' & Hrun' & Hg).
    { cbn [schedule]. destruct Hstep as (Hs & Ht & _). congruence. }
    exists t'. split; [exact Hrun'|].
    exact (same_growth_trans _ _ _ _ _ _ Hstep Hg).
Qed.

Lemma fund_state_frame (s : State) (p p' : pass)
    (t : dict (list allocation)) (cs : list coverage_record) :
  fund_state s p = Ok p' ->
  dict_keys t = dict_keys (pass_schedule p) ->
  exists t' c,
    fund_state s (Pass (pass_remaining p) t cs) =
      Ok (Pass (pass_remaining p') t' (cs ++ [c])) /\
    pass_coverage p' = pass_coverage p ++ [c] /\
    same_growth (pass_schedule p) (pass_schedule p') t t'.
Proof.
  intros Hrun Hkeys.
  destruct (fund_state_inv s p p' Hrun)
    as (name & total & f & c & Hname & Htotal & Hf & -> & Hc).
  destruct (fund_frame name _ _ f t Hf Hkeys) as (t' & Hf' & Hg).
  cbn [remaining schedule need allocated_total] in Hf'.
  exists t', c. split; [|split; [reflexivity | exact Hg]].
  unfold fund_state. rewrite Hname, Htotal. cbn [bind pass_remaining pass_schedule].
  rewrite Hf'. cbn [bind allocated_total remaining schedule pass_coverage].
  assert (Hpct : (if Qpositive total then fdiv (allocated_total f) total else Ok 0) =
                 Ok (if Qpositive total then allocated_total f / total else 0)).
  { destruct (Qpositive total) eqn:Hpos; [|reflexivity].
    apply fdiv_positive. now apply Qpositive_true. }
  rewrite Hpct. cbn [bind]. now subst c.
Qed.

Lemma fund_states_frame (states : list State) (p p' : pass)
    (t : dict (list allocation)) (cs : list coverage_record) :
  fund_states states p = Ok p' ->
  dict_keys t = dict_keys (pass_schedule p) ->
  exists t' new,
    fund_states states (Pass (pass_remaining p) t cs) =
      Ok (Pass (pass_remaining p') t' (cs ++ new)) /\
    pass_coverage p' = pass_coverage p ++ new /\
    same_growth (pass_schedule p) (pass_schedule p') t t'.
Proof.
  revert p t cs. induction states as [|s states IH]; intros p t cs Hrun Hkeys.
  - injection Hrun as <-. exists t, []. rewrite !app_nil_r.
    split; [reflexivity|]. split; [reflexivity | apply same_growth_refl].
  - simpl in Hrun. apply bind_Ok in Hrun as (p1 & Hs & Hrun).
    destruct (fund_state_frame s p p1 t cs Hs Hkeys) as (t1 & c & Hs' & Hcov1 & Hg1).
    destruct (IH p1 t1 (cs ++ [c]) Hrun) as (t' & new & Hrun' & Hcov & Hg).
    { destruct Hg1 as (H1 & H2 & _). congruence. }
    exists t', (c :: new). simpl. rewrite Hs'. cbn [bind].
    cbn [pass_remaining] in Hrun'. rewrite Hrun'.
    rewrite <- app_assoc. split; [reflexivity|].
    split; [rewrite Hcov, Hcov1, <- app_assoc; reflexivity|].
    exact (same_growth_trans _ _ _ _ _ _ Hg1 Hg).
Qed.

(** X12: funding a list of entities in one call gives what two calls give, the
    second on the remaining budgets of the first: the same remaining
    budgets, the coverage lists one after the other, and under every period
    (not named like a reserved key) the records of the first call followed by
    those of the second. *)
Theorem funding_in_two_batches (first second : list State) (budgets : Budgets) :
  NoDup (dict_keys budgets) ->
  Forall well_formed (first ++ second) ->
  exists out1 r1 out2 out,
    schedule_allow_split first budgets = Ok out1 /\
    dict_get out1 "remaining_budgets" = Some (RemainingBudgets r1) /\
    schedule_allow_split second r1 = Ok out2 /\
    schedule_allow_split (first ++ second) budgets = Ok out /\
    dict_get out "remaining_budgets" = dict_get out2 "remaining_budgets" /\
    (exists c1 c2,
       coverage_of out1 = Some c1 /\ coverage_of out2 = Some c2 /\
       coverage_of out = Some (c1 ++ c2)) /\
    forall q, q ∈ dict_keys budgets ->
      q <> "remaining_budgets"%string -> q <> "coverage"%string ->
      exists l1 l2,
        allocations_of out1 q = Some l1 /\ allocations_of out2 q = Some l2 /\
        allocations_of out q = Some (l1 ++ l2).
Proof.
  intros Hnd Hwf. apply Forall_app in Hwf as [Hwf1 Hwf2].
  destruct (allocation_pass_spec first budgets Hnd Hwf1) as (p1 & Hrun1 & Hext1 & _).
  assert (Hal1 : aligned p1).
  { destruct Hext1 as [Hr Hs _]. unfold aligned. rewrite Hr, Hs.
    unfold dict_keys. rewrite map_map. simpl. now rewrite map_id. }
  assert (Hkeys1 : dict_keys (pass_remaining p1) = dict_keys budgets)
    by apply Hext1.
  destruct (fund_states_spec second p1 Hwf2 Hal1) as (p2 & cs & Hrun2 & Hext2 & Hcov2 & _).
  pose (t := map (fun q => (q, @nil allocation)) (dict_keys (pass_remaining p1))).
  destruct (fund_states_frame second p1 p2 t [] Hrun2) as (t' & new & Hfresh & Hcov2' & Hg).
  { unfold t, dict_keys. rewrite map_map. simpl. rewrite map_id. symmetry. apply Hal1. }
  assert (new = cs) by (rewrite Hcov2 in Hcov2'; now apply app_inv_head in Hcov2').
  subst new.
  exists (finish p1), (pass_remaining p1),
         (finish (Pass (pass_remaining p2) t' cs)), (finish p2).
  unfold schedule_allow_split, allocation_pass in *.
  rewrite Hrun1. cbn [bind]. split; [reflexivity|].
  split. { unfold finish. rewrite dict_get_set_ne by discriminate. apply dict_get_set_eq. }
  split. { rewrite (initial_pass_NoDup _ ltac:(now rewrite Hkeys1)).
           fold t. now rewrite Hfresh. }
  split. { rewrite fund_states_app, Hrun1. cbn [bind]. now rewrite Hrun2. }
  split. { unfold finish. cbn [pass_remaining].
           rewrite !(dict_get_set_ne _ "coverage" "remaining_budgets") by discriminate.
           now rewrite !dict_get_set_eq. }
  split. { exists (pass_coverage p1), cs. rewrite !finish_coverage.
           cbn [pass_coverage]. now rewrite Hcov2. }
  intros q Hq H1 H2. rewrite !finish_allocations by assumption.
  cbn [pass_schedule].
  destruct (proj2 (dict_get_keys (pass_schedule p1) q)) as [l1 Hl1].
  { rewrite Hal1, Hkeys1. exact Hq. }
  assert (Ht : dict_get t q = Some []).
  { unfold t. apply initial_schedule_get. now rewrite Hkeys1. }
  destruct Hg as (_ & _ & Hg). destruct (Hg q l1 [] Hl1 Ht) as (l2 & Hl & Hl2).
  exists l1, l2. auto.
Qed.

Lemma funding_in_two_batches_witness :
  exists out1 r1 out2 out,
    schedule_allow_split (take 2 example_states) budgets_small = Ok out1 /\
    dict_get out1 "remaining_budgets" = Some (RemainingBudgets r1) /\
    schedule_allow_split (drop 2 example_states) r1 = Ok out2 /\
    schedule_allow_split (take 2 example_states ++ drop 2 example_states)
      budgets_small = Ok out /\
    dict_get out "remaining_budgets" = dict_get out2 "remaining_budgets" /\
    (exists c1 c2,
       coverage_of out1 = Some c1 /\ coverage_of out2 = Some c2 /\
       coverage_of out = Some (c1 ++ c2)) /\
    forall q, q ∈ dict_keys budgets_small ->
      q <> "remaining_budgets"%string -> q <> "coverage"%string ->
      exists l1 l2,
        allocations_of out1 q = Some l1 /\ allocations_of out2 q = Some l2 /\
        allocations_of out q = Some (l1 ++ l2).
Proof.
  apply (funding_in_two_batches (take 2 example_states) (drop 2 example_states)
           budgets_small).
  - exact budgets_small_NoDup.
  - exact example_states_well_formed.
Defined.

(** ** Amounts are never negative *)

(** X3: whatever the signs of the budgets and costs, every recorded amount is
    positive, and a period whose budget is zero or negative keeps its budget
    and receives no record. *)
Theorem no_negative_allocation (states : list State) (budgets : Budgets) :
  NoDup (dict_keys budgets) ->
  Forall well_formed states ->
  exists out,
    schedule_allow_split states budgets = Ok out /\
    forall q b,
      dict_get budgets q = Some b ->
      q <> "remaining_budgets"%string -> q <> "coverage"%string ->
      exists l,
        allocations_of out q = Some l /\ positive_amounts l /\
        (b <= 0 -> l = [] /\ remaining_of out q = Some b).
Proof.
  intros Hnd Hwf.
  destruct (allocation_pass_spec states budgets Hnd Hwf) as (p & Hrun & Hext & _).
  exists (finish p). unfold schedule_allow_split. rewrite Hrun. simpl.
  split; [reflexivity|]. intros q b Hb H1 H2.
  assert (Hq : q ∈ dict_keys budgets) by (apply dict_get_keys; eauto).
  destruct (Hext.(ext_period _ _ _ _) q b [] Hb (initial_schedule_get _ _ Hq))
    as (b' & new & Hb' & Hnew & _ & Hpos & Hzero & _).
  exists new. rewrite finish_allocations by assumption. rewrite finish_remaining.
  split; [exact Hnew|]. split; [exact Hpos|].
  intros Hle. destruct (Hzero Hle) as [-> ->]. auto.
Qed.

Lemma no_negative_allocation_witness :
  exists out,
    schedule_allow_split [state_A] [("q1", -(5)); ("q2", 3)] = Ok out /\
    forall q b,
      dict_get [("q1", -(5)); ("q2", 3)] q = Some b ->
      q <> "remaining_budgets"%string -> q <> "coverage"%string ->
      exists l,
        allocations_of out q = Some l /\ positive_amounts l /\
        (b <= 0 -> l = [] /\ remaining_of out q = Some b).
Proof.
  apply (no_negative_allocation [state_A] [("q1", -(5)); ("q2", 3)]).
  - apply (bool_decide_unpack _). vm_compute. exact I.
  - exact state_A_well_formed.
Defined.

End ScheduleExtra.

(* ===================================================================== *)
(** * Further properties of the ranking engine                           *)
(* ===================================================================== *)

Module TopsisExtra.
Import Topsis TopsisFacts.
Local Open Scope R_scope.

(** ** The order of the checks *)

Lemma for_each_Raise {A : Type} (f : A -> result unit) (pre post : list A)
    (x : A) (e : exn) :
  (forall y, y ∈ pre -> f y = Ok tt) -> f x = Raise e ->
  for_each f (pre ++ x :: post) = Raise e.
Proof.
  intros Hpre Hx. induction pre as [|y pre IH]; simpl.
  - now rewrite Hx.
  - rewrite (Hpre y) by left. simpl. apply IH. intros z Hz. apply Hpre. now right.
Qed.

(** X14: the weights and flags are checked before any entity is read: the first
    criterion of the evaluation order without a weight, or with a weight and
    without a flag, decides the error, whatever the entities are. *)
Theorem criteria_checked_first (states : list State) (weights : Weights)
    (benefit_flags : Flags) (pre post : list string) (c : string) :
  configured weights benefit_flags pre ->
  (weights !! c = None ->
   topsis_rank_states states (Some weights) (Some benefit_flags) (pre ++ c :: post) =
     Raise (ValueError (MissingWeight c))) /\
  (is_Some (weights !! c) -> benefit_flags !! c = None ->
   topsis_rank_states states (Some weights) (Some benefit_flags) (pre ++ c :: post) =
     Raise (ValueError (MissingFlag c))).
Proof.
  intros Hpre.
  assert (Hok : forall y, y ∈ pre -> check_criterion weights benefit_flags y = Ok tt).
  { intros y Hy. destruct (Hpre y Hy) as [[w Hw] [b Hb]].
    unfold check_criterion. now rewrite Hw, Hb. }
  split.
  - intros Hw. unfold topsis_rank_states, topsis_body, validate.
    rewrite (for_each_Raise _ pre post c (ValueError (MissingWeight c)) Hok);
      [reflexivity|].
    unfold check_criterion. now rewrite Hw.
  - intros [w Hw] Hb. unfold topsis_rank_states, topsis_body, validate.
    rewrite (for_each_Raise _ pre post c (ValueError (MissingFlag c)) Hok);
      [reflexivity|].
    unfold check_criterion. now rewrite Hw, Hb.
Qed.

Lemma criteria_checked_first_witness :
  ((∅ : Weights) !! "cost_per_habitant"%string = None ->
   topsis_rank_states [∅] (Some ∅) (Some default_benefit_flags)
     ([] ++ "cost_per_habitant"%string :: ["score"%string]) =
     Raise (ValueError (MissingWeight "cost_per_habitant"))) /\
  (is_Some ((∅ : Weights) !! "cost_per_habitant"%string) ->
   default_benefit_flags !! "cost_per_habitant"%string = None ->
   topsis_rank_states [∅] (Some ∅) (Some default_benefit_flags)
     ([] ++ "cost_per_habitant"%string :: ["score"%string]) =
     Raise (ValueError (MissingFlag "cost_per_habitant"))).
Proof.
  apply (criteria_checked_first [∅] ∅ default_benefit_flags []
           ["score"%string] "cost_per_habitant"%string).
  intros c Hc. inversion Hc.
Defined.

(** X15: with every criterion configured, the first entity that lacks a value,
    and the first criterion it lacks, decide the error. *)
Theorem missing_criterion_raises (pre post : list State) (s : State)
    (weights : Weights) (benefit_flags : Flags)
    (before after : list string) (c : string) :
  configured weights benefit_flags (before ++ c :: after) ->
  Forall (present (before ++ c :: after)) pre ->
  present before s ->
  s !! c = None ->
  topsis_rank_states (pre ++ s :: post) (Some weights) (Some benefit_flags)
    (before ++ c :: after) = Raise (ValueError (MissingCriterion c)).
Proof.
  intros Hconf Hpre Hbefore Hc.
  unfold topsis_rank_states, topsis_body, validate.
  rewrite for_each_Ok.
  2: { intros y Hy. destruct (Hconf y Hy) as [[w Hw] [b Hb]].
       unfold check_criterion. now rewrite Hw, Hb. }
  cbn [bind]. rewrite (for_each_Raise _ pre post s (ValueError (MissingCriterion c)));
    [reflexivity | |].
  - intros y Hy. apply for_each_Ok. intros k Hk.
    destruct (proj1 (Forall_forall _ _) Hpre y Hy k Hk) as [v ->]. reflexivity.
  - unfold check_state. apply for_each_Raise; [|now rewrite Hc].
    intros k Hk. destruct (Hbefore k Hk) as [v ->]. reflexivity.
Qed.

Lemma missing_criterion_raises_witness :
  topsis_rank_states
    ([mk_state "A" 1 2 3] ++ {[ "name"%string := VStr "B"; "score"%string := VNum 1 ]}
       :: [])
    (Some default_weights) (Some default_benefit_flags)
    (["score"%string] ++ "cost_per_habitant"%string :: ["population"%string]) =
    Raise (ValueError (MissingCriterion "cost_per_habitant")).
Proof.
  apply (missing_criterion_raises [mk_state "A" 1 2 3] []
           {[ "name"%string := VStr "B"; "score"%string := VNum 1 ]}
           default_weights default_benefit_flags
           ["score"%string] ["population"%string] "cost_per_habitant"%string).
  - exact default_configured.
  - apply List.Forall_cons; [|apply List.Forall_nil].
    intros c Hc. destruct (mk_state_numeric "A" 1 2 3 c Hc) as [x Hx]. eauto.
  - intros c Hc. apply list_elem_of_singleton in Hc as ->. eexists. reflexivity.
  - reflexivity.
Defined.

(** ** Entities without a name or without one of the three reported values *)

Lemma mapM_Raise {A B : Type} (f : A -> result B) (pre post : list A)
    (x : A) (e : exn) :
  (forall y, y ∈ pre -> exists v, f y = Ok v) -> f x = Raise e ->
  mapM f (pre ++ x :: post) = Raise e.
Proof.
  intros Hpre Hx. induction pre as [|y pre IH]; simpl.
  - now rewrite Hx.
  - destruct (Hpre y) as [v Hv]; [left|]. rewrite Hv. simpl.
    rewrite IH; [reflexivity|]. intros z Hz. apply Hpre. now right.
Qed.


Lemma validate_present states weights benefit_flags criteria_order :
  configured weights benefit_flags criteria_order ->
  Forall (present criteria_order) states ->
  validate states weights benefit_flags criteria_order = Ok tt.
Proof.
  intros Hconf Hpres. unfold validate. rewrite for_each_Ok.
  - cbn [bind]. apply for_each_Ok. intros s Hs.
    apply for_each_Ok. intros c Hc.
    destruct (proj1 (Forall_forall _ _) Hpres s Hs c Hc) as [x ->]. reflexivity.
  - intros c Hc. destruct (Hconf c Hc) as [[w Hw] [b Hb]].
    unfold check_criterion. now rewrite Hw, Hb.
Qed.

(** X16: the name of an entity is not validated: an entity without a name passes
    the checks and makes the call fail with a [KeyError], not with a
    validation error, whatever the weights sum to. *)
Theorem missing_name_raises (pre post : list State) (s : State)
    (weights : Weights) (benefit_flags : Flags) (criteria_order : list string) :
  configured weights benefit_flags criteria_order ->
  Forall (present criteria_order) (pre ++ s :: post) ->
  Forall named pre ->
  s !! "name"%string = None ->
  topsis_rank_states (pre ++ s :: post) (Some weights) (Some benefit_flags)
    criteria_order = Raise (KeyError "name").
Proof.
  intros Hconf Hpres Hpre Hs. unfold topsis_rank_states, topsis_body.
  rewrite (validate_present _ _ _ _ Hconf Hpres). cbn [bind].
  rewrite (mapM_Raise _ pre post s (KeyError "name")); [reflexivity | |].
  - intros y Hy. destruct (proj1 (Forall_forall _ _) Hpre y Hy) as [v Hv].
    exists v. unfold getitem. now rewrite Hv.
  - unfold getitem. now rewrite Hs.
Qed.

Lemma missing_name_raises_witness :
  topsis_rank_states
    ([mk_state "A" 1 2 3] ++
       {[ "score"%string := VNum 1; "cost_per_habitant"%string := VNum 2;
          "population"%string := VNum 3 ]} :: [])
    (Some default_weights) (Some default_benefit_flags) default_criteria_order =
    Raise (KeyError "name").
Proof.
  apply (missing_name_raises [mk_state "A" 1 2 3] []
           {[ "score"%string := VNum 1; "cost_per_habitant"%string := VNum 2;
              "population"%string := VNum 3 ]}).
  - exact default_configured.
  - repeat (apply List.Forall_cons;
            [intros c Hc; unfold default_criteria_order in Hc;
             repeat (apply elem_of_cons in Hc as [->|Hc]);
             [eexists; reflexivity .. | inversion Hc]|]).
    apply List.Forall_nil.
  - apply List.Forall_cons; [eexists; reflexivity | apply List.Forall_nil].
  - reflexivity.
Defined.

Lemma names_Ok_named (states : list State) :
  Forall named states ->
  mapM (fun s => getitem s "name") states = Ok (names_of states).
Proof.
  intros Hd. apply mapM_Ok_map. intros s Hs.
  destruct (proj1 (Forall_forall _ _) Hd s Hs) as [v Hv].
  unfold getitem, field. now rewrite Hv.
Qed.






(** ** No entity, no criterion *)

(** X18: with an empty evaluation order the weights sum to 0, and the call on
    named entities fails with the error of the weight total. *)
Theorem no_criteria_raises (states : list State) (weights : Weights)
    (benefit_flags : Flags) :
  Forall named states ->
  topsis_rank_states states (Some weights) (Some benefit_flags) [] =
    Raise (ValueError WeightSum).
Proof.
  intros Hnamed. unfold topsis_rank_states, topsis_body.
  rewrite validate_Ok.
  2: { intros c Hc. inversion Hc. }
  2: { apply Forall_forall. intros s _ c Hc. inversion Hc. }
  cbn [bind]. rewrite (names_Ok_named _ Hnamed). cbn [bind].
  rewrite decision_matrix_Ok.
  2: { apply Forall_forall. intros s _ c Hc. inversion Hc. }
  cbn [bind].
  rewrite (column_norms_Ok _ _ _ (X_of_shaped states [])). cbn [bind].
  rewrite (normalize_Ok _ _ _ _ (X_of_shaped states [])).
  2: { reflexivity. }
  2: { constructor. }
  cbn [bind]. unfold weight_vector. cbn [mapM bind]. unfold sum. cbn [fold_left].
  destruct (Rle_dec 0 0); [reflexivity | lra].
Qed.

Lemma no_criteria_raises_witness :
  topsis_rank_states example_states (Some default_weights)
    (Some default_benefit_flags) [] = Raise (ValueError WeightSum).
Proof.
  apply (no_criteria_raises example_states).
  repeat (apply List.Forall_cons; [eexists; reflexivity|]). apply List.Forall_nil.
Defined.

(** ** The weights *)




(** ** Normalized columns *)




(** ** The ideal points *)






(** ** The extreme values of the closeness coefficient *)






(** ** The entries of the matrices *)





(** ** Entities with the same values *)






(** ** Entities that are all alike, or a single entity *)





(** ** Only the proportions of the weights matter *)








(** ** Criteria of weight zero *)







(** ** An entity that is best in every criterion *)








(** ** The validation errors *)



End TopsisExtra.
